(** * OCR desktop tool (main.py): dispatcher [OCRWorker] and shell [OCRApp]

    A shallow embedding of [src/main.py].  The worker's [run] method is a
    program in a small reader/state/exception monad whose actions are the
    signal emissions, the clock readings, the file read and the HTTP POST
    of the source; the shell is a record of the widgets' contents with one
    function per Qt slot and a step function over the GUI events. *)

From Stdlib Require Import List Bool Arith ZArith NArith Lia.
From Stdlib Require Import Ascii String.
From Stdlib Require Import PrimFloat FloatOps SpecFloat.
Import ListNotations.

Set Implicit Arguments.
Set Warnings "-register-all".

(* ================================================================== *)
(** * Python values *)
(* ================================================================== *)

Module Py.

(** ** [str]: a sequence of Unicode code points *)

Definition char := N.
Definition str := list char.

(** A source literal (all literals of main.py are ASCII). *)
Definition u (s : string) : str :=
  map N_of_ascii (list_ascii_of_string s).

Definition str_eqb (a b : str) : bool :=
  if list_eq_dec N.eq_dec a b then true else false.

(** Truth value of a [str]: the empty string is false. *)
Definition truthy (s : str) : bool :=
  match s with [] => false | _ :: _ => true end.

(** [str.isspace] on one character (CPython's [_PyUnicode_IsWhitespace]). *)
Definition isspace (c : char) : bool :=
  ((9 <=? c) && (c <=? 13) ||
   (28 <=? c) && (c <=? 32) ||
   (c =? 133) || (c =? 160) || (c =? 5760) ||
   (8192 <=? c) && (c <=? 8202) ||
   (c =? 8232) || (c =? 8233) || (c =? 8239) || (c =? 8287) ||
   (c =? 12288))%N.

Fixpoint lstrip (s : str) : str :=
  match s with
  | c :: s' => if isspace c then lstrip s' else s
  | [] => []
  end.

Definition rstrip (s : str) : str := rev (lstrip (rev s)).

(** [s.strip()] *)
Definition strip (s : str) : str := rstrip (lstrip s).

(** [s.startswith(p)] *)
Fixpoint startswith (s p : str) : bool :=
  match p, s with
  | [], _ => true
  | _ :: _, [] => false
  | a :: p', b :: s' => (a =? b)%N && startswith s' p'
  end.

(** [s.endswith(p)] *)
Definition endswith (s p : str) : bool := startswith (rev s) (rev p).

(** [s.endswith((p1, ..., pn))] *)
Definition endswith_any (s : str) (ps : list str) : bool :=
  existsb (endswith s) ps.

(** [needle in hay] *)
Fixpoint contains (hay needle : str) : bool :=
  startswith hay needle ||
  match hay with
  | [] => false
  | _ :: hay' => contains hay' needle
  end.

(** [s.split('/')[-1]]: what follows the last ['/'] (all of [s] if none). *)
Fixpoint last_component (s : str) : str :=
  match s with
  | [] => []
  | c :: s' =>
      if existsb (N.eqb 47) s' then last_component s'
      else if (c =? 47)%N then s' else s
  end.

(** [sep.join(xs)] for a list of [str]. *)
Fixpoint join (sep : str) (xs : list str) : str :=
  match xs with
  | [] => []
  | [x] => x
  | x :: xs' => x ++ sep ++ join sep xs'
  end.

(** ** Decimal text of integers: [str(n)] *)

Definition digit (d : N) : char := (48 + d)%N.

Fixpoint digits_fuel (fuel : nat) (n : N) (acc : str) : str :=
  match fuel with
  | O => acc
  | S fuel' =>
      let acc' := digit (n mod 10) :: acc in
      if (n / 10 =? 0)%N then acc' else digits_fuel fuel' (n / 10) acc'
  end.

Definition str_of_N (n : N) : str := digits_fuel (S (N.to_nat (N.log2 n))) n [].

Definition str_of_Z (z : Z) : str :=
  match z with
  | Zneg p => 45%N :: str_of_N (Npos p)
  | _ => str_of_N (Z.to_N z)
  end.

(** ** [float]: IEEE binary64, and the format spec [:.2f] *)

(** Nearest integer to [m * 2^e], ties to even. *)
Definition round_half_even (m : Z) (e : Z) : Z :=
  if (0 <=? e)%Z then (m * 2 ^ e)%Z
  else
    let d := (2 ^ (- e))%Z in
    let q := (m / d)%Z in
    let r := (m mod d)%Z in
    if (2 * r <? d)%Z then q
    else if (d <? 2 * r)%Z then (q + 1)%Z
    else if Z.even q then q else (q + 1)%Z.

Definition two_digits (n : N) : str := [digit (n / 10); digit (n mod 10)].

(** [f"{x:.2f}"] *)
Definition fmt_2f (x : float) : str :=
  match Prim2SF x with
  | S754_nan => u "nan"
  | S754_infinity s => if s then u "-inf" else u "inf"
  | S754_zero s => if s then u "-0.00" else u "0.00"
  | S754_finite s m e =>
      let n := Z.to_N (round_half_even (100 * Zpos m) e) in
      (if s then u "-" else []) ++
      str_of_N (n / 100) ++ u "." ++ two_digits (n mod 100)
  end.

(** ** [bytes] and base64 *)

Definition bytes := list Byte.byte.

Definition b64_alphabet : str :=
  u "ABCDEFGHIJKLMNOPQRSTUVWXYZabcdefghijklmnopqrstuvwxyz0123456789+/".

Definition b64_char (i : N) : char := nth (N.to_nat i) b64_alphabet 61%N.

Definition b64_pad : char := 61%N.

(** [base64.b64encode(bs).decode("utf-8")]: three bytes give four
    characters of the alphabet, a last group of one or two bytes is padded
    with ['=']; the output is ASCII, so decoding it is the identity on code
    points. *)
Fixpoint b64encode (bs : bytes) : str :=
  match bs with
  | [] => []
  | [a] =>
      let n := N.shiftl (Byte.to_N a) 16 in
      [b64_char (N.shiftr n 18); b64_char (N.land (N.shiftr n 12) 63);
       b64_pad; b64_pad]
  | [a; b] =>
      let n := N.lor (N.shiftl (Byte.to_N a) 16) (N.shiftl (Byte.to_N b) 8) in
      [b64_char (N.shiftr n 18); b64_char (N.land (N.shiftr n 12) 63);
       b64_char (N.land (N.shiftr n 6) 63); b64_pad]
  | a :: b :: c :: rest =>
      let n := N.lor (N.lor (N.shiftl (Byte.to_N a) 16)
                            (N.shiftl (Byte.to_N b) 8)) (Byte.to_N c) in
      b64_char (N.shiftr n 18) :: b64_char (N.land (N.shiftr n 12) 63) ::
      b64_char (N.land (N.shiftr n 6) 63) :: b64_char (N.land n 63) ::
      b64encode rest
  end.

(** ** Exceptions *)

(** An exception object, instance of a subclass of [Exception]: its class
    name and [str(e)]. *)
Record exn := Exn { exn_type : string; exn_str : str }.

(** What evaluating an expression gives: a value, or a raised exception. *)
Inductive outcome (A : Type) :=
| Ok (a : A)
| Raise (e : exn).
Arguments Ok {A} a.
Arguments Raise {A} e.

(** Evaluation in sequence: the first exception raised is the result. *)
Definition and_then {A B} (o : outcome A) (k : A -> outcome B) : outcome B :=
  match o with
  | Ok a => k a
  | Raise e => Raise e
  end.

(** ** Objects built by [json] and passed to [requests] *)

Inductive value :=
| VNone
| VBool (b : bool)
| VInt (z : Z)
| VFloat (f : float)
| VStr (s : str)
| VList (xs : list value)
| VDict (kvs : list (str * value)).

Definition type_name (v : value) : string :=
  match v with
  | VNone => "NoneType"
  | VBool _ => "bool"
  | VInt _ => "int"
  | VFloat _ => "float"
  | VStr _ => "str"
  | VList _ => "list"
  | VDict _ => "dict"
  end.

(** Lookup in a dict (kept in insertion order, keys distinct). *)
Fixpoint dict_lookup (kvs : list (str * value)) (k : str) : option value :=
  match kvs with
  | [] => None
  | (k', v) :: kvs' => if str_eqb k' k then Some v else dict_lookup kvs' k
  end.

Definition no_attribute (v : value) (attr : string) : exn :=
  Exn "AttributeError"
      (u "'" ++ u (type_name v) ++ u "' object has no attribute '" ++
       u attr ++ u "'").

Definition not_subscriptable (v : value) : exn :=
  Exn "TypeError" (u "'" ++ u (type_name v) ++ u "' object is not subscriptable").

(** [v.get(key, default)] *)
Definition get_default (v : value) (key : str) (default : value) : outcome value :=
  match v with
  | VDict kvs =>
      Ok (match dict_lookup kvs key with Some x => x | None => default end)
  | _ => Raise (no_attribute v "get")
  end.

(** [v.get(key)] *)
Definition get (v : value) (key : str) : outcome value := get_default v key VNone.

(** [v[i]] for an integer [i]; a negative index counts from the end.  The
    keys of a dict read from JSON are strings, so an integer key is never
    found. *)
Definition getitem_int (v : value) (i : Z) : outcome value :=
  match v with
  | VList xs =>
      let n := Z.of_nat (List.length xs) in
      let j := if (i <? 0)%Z then (i + n)%Z else i in
      if ((0 <=? j) && (j <? n))%Z
      then match nth_error xs (Z.to_nat j) with
           | Some x => Ok x
           | None => Raise (Exn "IndexError" (u "list index out of range"))
           end
      else Raise (Exn "IndexError" (u "list index out of range"))
  | VStr s =>
      let n := Z.of_nat (List.length s) in
      let j := if (i <? 0)%Z then (i + n)%Z else i in
      if ((0 <=? j) && (j <? n))%Z
      then match nth_error s (Z.to_nat j) with
           | Some c => Ok (VStr [c])
           | None => Raise (Exn "IndexError" (u "string index out of range"))
           end
      else Raise (Exn "IndexError" (u "string index out of range"))
  | VDict _ => Raise (Exn "KeyError" (str_of_Z i))
  | _ => Raise (not_subscriptable v)
  end.

(** [v[key]] for a string key without quotes or escapes (the source only
    has ["name"]); the messages are CPython 3.11's. *)
Definition getitem_str (v : value) (key : str) : outcome value :=
  match v with
  | VDict kvs =>
      match dict_lookup kvs key with
      | Some x => Ok x
      | None => Raise (Exn "KeyError" (u "'" ++ key ++ u "'"))
      end
  | VList _ =>
      Raise (Exn "TypeError" (u "list indices must be integers or slices, not str"))
  | VStr _ =>
      Raise (Exn "TypeError" (u "string indices must be integers, not 'str'"))
  | _ => Raise (not_subscriptable v)
  end.

(** [v.strip()] *)
Definition method_strip (v : value) : outcome str :=
  match v with
  | VStr s => Ok (strip s)
  | _ => Raise (no_attribute v "strip")
  end.

(** The items [for x in v] goes through. *)
Definition iterate (v : value) : outcome (list value) :=
  match v with
  | VList xs => Ok xs
  | VDict kvs => Ok (map (fun kv => VStr (fst kv)) kvs)
  | VStr s => Ok (map (fun c => VStr [c]) s)
  | _ => Raise (Exn "TypeError"
                    (u "'" ++ u (type_name v) ++ u "' object is not iterable"))
  end.

(** [sep.join(xs)] for a list of objects: the first that is not a [str]
    raises. *)
Fixpoint join_values_from (i : N) (sep : str) (xs : list value) : outcome str :=
  match xs with
  | [] => Ok []
  | x :: xs' =>
      match x with
      | VStr s =>
          match xs' with
          | [] => Ok s
          | _ :: _ =>
              match join_values_from (i + 1) sep xs' with
              | Ok r => Ok (s ++ sep ++ r)
              | Raise e => Raise e
              end
          end
      | _ =>
          Raise (Exn "TypeError"
                     (u "sequence item " ++ str_of_N i ++
                      u ": expected str instance, " ++ u (type_name x) ++
                      u " found"))
      end
  end.

Definition join_values (sep : str) (xs : list value) : outcome str :=
  join_values_from 0 sep xs.

End Py.

(* ================================================================== *)
(** * Statements: state, exceptions, [try] *)
(* ================================================================== *)

Module Eff.
Import Py.

(** A block of statements run in surroundings [Env] on a state [St]: it
    leaves a state and either a value or a raised exception. *)
Definition prog (Env St A : Type) := Env -> St -> St * outcome A.

Section Prog.
Context {Env St : Type}.

Definition ret {A} (a : A) : prog Env St A := fun _ t => (t, Ok a).

Definition bind {A B} (m : prog Env St A) (k : A -> prog Env St B)
    : prog Env St B :=
  fun W t =>
    match m W t with
    | (t', Ok a) => k a W t'
    | (t', Raise e) => (t', Raise e)
    end.

(** An expression that may raise, evaluated without touching the state. *)
Definition lift {A} (o : outcome A) : prog Env St A := fun _ t => (t, o).

(** [try: body except Exception as e: handler(e)] *)
Definition try_except {A} (body : prog Env St A)
    (handler : exn -> prog Env St A) : prog Env St A :=
  fun W t =>
    match body W t with
    | (t', Ok a) => (t', Ok a)
    | (t', Raise e) => handler e W t'
    end.

(** [try: body finally: final] *)
Definition try_finally {A} (body : prog Env St A) (final : prog Env St unit)
    : prog Env St A :=
  fun W t =>
    match body W t with
    | (t', r) =>
        match final W t' with
        | (t'', Ok _) => (t'', r)
        | (t'', Raise e) => (t'', Raise e)
        end
    end.

End Prog.

Notation "x <- m ;; k" := (bind m (fun x => k))
  (at level 61, m at next level, right associativity).
Notation "m ;; k" := (bind m (fun _ => k))
  (at level 61, right associativity).

End Eff.

(* ================================================================== *)
(** * The dispatcher: [class OCRWorker(QObject)] *)
(* ================================================================== *)

Module Worker.
Import Py Eff.

(** The [pyqtSignal]s of the class, with their arguments. *)
Inductive signal :=
| finished
| error (msg : str)
| result (text : str)
| status (msg : str)
| log (msg : str) (is_error : bool).

(** The arguments of [requests.post(url, json=, headers=, timeout=)]. *)
Record request := Request {
  req_url : str;
  req_json : value;
  req_headers : list (str * str);
  req_timeout : Z
}.

(** A [requests.Response]: [status_code], [text], and what [json()] gives. *)
Record response := Response {
  status_code : Z;
  text : str;
  json : outcome value
}.

(** What a run does that can be seen from outside. *)
Inductive event :=
| Emit (s : signal)
| Post (r : request).

(** The attributes [__init__] sets. *)
Record OCRWorker := {
  image_path : str;
  model : str;
  url : str;
  _is_running : bool
}.

Definition __init__ (image_path model url : str) : OCRWorker :=
  {| image_path := image_path; model := model; url := url; _is_running := true |}.

(** [def stop(self)] *)
Definition stop (self : OCRWorker) : OCRWorker :=
  {| image_path := image_path self; model := model self; url := url self;
     _is_running := false |}.

(** The surroundings of one run.  The actions of [run] are numbered from 0
    in the order they are performed; [stop_called k] tells whether another
    thread calls [stop] on the worker object just before action [k]. *)
Record World := {
  read_file : str -> outcome bytes;     (* open(path, "rb") and read() *)
  time_time : nat -> float;             (* time.time() as action k *)
  requests_post : request -> outcome response;
  stop_called : nat -> bool
}.

(** The running method: the worker object it shares with the other thread,
    the number of actions done, and the events so far. *)
Record Thread := {
  self : OCRWorker;
  pc : nat;
  trace : list event
}.

(** ** Method bodies *)

Definition M (A : Type) := prog World Thread A.

(** The worker object once a [stop] of the other thread, if one was
    called, has landed. *)
Definition land (called : bool) (w : OCRWorker) : OCRWorker :=
  if called then stop w else w.

(** One action: a pending [stop] of the other thread lands first. *)
Definition action {A}
    (f : World -> nat -> OCRWorker -> list event * outcome A) : M A :=
  fun W t =>
    let me := land (stop_called W (pc t)) (self t) in
    let '(evs, r) := f W (pc t) me in
    ({| self := me; pc := S (pc t); trace := trace t ++ evs |}, r).

(** [self.<signal>.emit(...)]: the signal is queued for the GUI thread;
    emitting does not raise. *)
Definition emit (s : signal) : M unit :=
  action (fun _ _ _ => ([Emit s], Ok tt)).

(** [self.<attribute>] *)
Definition attr {A} (field : OCRWorker -> A) : M A :=
  action (fun _ _ me => ([], Ok (field me))).

(** [time.time()] *)
Definition time (_ : unit) : M float :=
  action (fun W k _ => ([], Ok (time_time W k))).

(** [with open(path, "rb") as image_file: ... image_file.read()] *)
Definition open_read (path : str) : M bytes :=
  action (fun W _ _ => ([], read_file W path)).

(** [requests.post(url, json=data, headers=headers, timeout=timeout)] *)
Definition post (url : str) (data : value) (headers : list (str * str))
    (timeout : Z) : M response :=
  let r := Request url data headers timeout in
  action (fun W _ _ => ([Post r], requests_post W r)).

(** ** [def run(self)] *)

Definition newline : str := [10%N].

Definition prompt : str :=
  u "Extract ALL text from this image exactly as it appears." ++ newline ++
  u "            Preserve original formatting, line breaks, punctuation and special characters." ++ newline ++
  u "            Return ONLY the extracted text with NO additional commentary.".

Definition DEMO_KEY : str := u "gsk_be...l".

Definition GROQ_API_URL : str :=
  u "https://api.groq.com/openai/v1/chat/completions".

(** The dict first assigned to [data] (the request of the Ollama API,
    whose [requests.post] is commented out). *)
Definition ollama_data (encoded_image : str) : value :=
  VDict [ (u "model", VStr (u "llama-3.2-11b-vision-preview"));
          (u "prompt", VStr prompt);
          (u "images", VList [VStr encoded_image]);
          (u "stream", VBool false) ].

Definition headers : list (str * str) :=
  [ (u "Content-Type", u "application/json");
    (u "Authorization", u "Bearer " ++ DEMO_KEY) ].

(** The dict assigned to [data] in the Groq block. *)
Definition groq_data (encoded_image : str) : value :=
  VDict
    [ (u "messages",
       VList
         [ VDict
             [ (u "role", VStr (u "user"));
               (u "content",
                VList
                  [ VDict [ (u "type", VStr (u "text"));
                            (u "text", VStr prompt) ];
                    VDict [ (u "type", VStr (u "image_url"));
                            (u "image_url",
                             VDict [ (u "url",
                                      VStr (u "data:image/jpeg;base64," ++
                                            encoded_image)) ]) ] ]) ] ]);
      (u "model", VStr (u "llama-3.2-11b-vision-preview"));
      (u "stream", VBool false) ].

(** [result.get("choices")[0].get("message").get("content")] *)
Definition message_content (parsed : value) : outcome value :=
  and_then (get parsed (u "choices")) (fun choices =>
  and_then (getitem_int choices 0) (fun choice =>
  and_then (get choice (u "message")) (fun message =>
  get message (u "content")))).

(** The statements of the [try] block. *)
Definition run_try : M unit :=
  emit (status (u "Processing image...")) ;;
  start_time <- time tt ;;
  path <- attr image_path ;;
  image <- open_read path ;;
  let encoded_image := b64encode image in
  now <- time tt ;;
  emit (log (u "Image encoded in " ++ fmt_2f (now - start_time) ++ u "s") false) ;;
  let data := ollama_data encoded_image in
  m <- attr model ;;
  emit (log (u "Sending to " ++ m) false) ;;
  let data := groq_data encoded_image in
  response <- post GROQ_API_URL data headers 120 ;;
  if (status_code response =? 200)%Z then
    parsed <- lift (json response) ;;
    content <- lift (message_content parsed) ;;
    stripped <- lift (method_strip content) ;;
    now <- time tt ;;
    let elapsed := (now - start_time)%float in
    emit (result stripped) ;;
    emit (status (u "Done in " ++ fmt_2f elapsed ++ u "s")) ;;
    emit (log (u "OCR completed in " ++ fmt_2f elapsed ++ u "s") false) ;;
    emit (log (text response) true)
  else
    let error_msg := u "API error (Groq): " ++ text response in
    emit (error error_msg) ;;
    emit (log error_msg true).

(** The [except Exception as e] block. *)
Definition run_except (e : exn) : M unit :=
  let error_msg := u "Processing error: " ++ exn_str e in
  emit (error error_msg) ;;
  emit (log error_msg true).

Definition run : M unit :=
  try_finally (try_except run_try run_except) (emit finished).

(** A run of a worker object from its first action. *)
Definition start (w : OCRWorker) : Thread := {| self := w; pc := 0; trace := [] |}.

Definition run_trace (W : World) (w : OCRWorker) : list event :=
  trace (fst (run W (start w))).

Definition signals_of (tr : list event) : list signal :=
  flat_map (fun e => match e with Emit s => [s] | Post _ => [] end) tr.

Definition posts_of (tr : list event) : list request :=
  flat_map (fun e => match e with Post r => [r] | Emit _ => [] end) tr.

Definition is_result (s : signal) : bool :=
  match s with result _ => true | _ => false end.

Definition is_error (s : signal) : bool :=
  match s with error _ => true | _ => false end.

Definition is_finished (s : signal) : bool :=
  match s with finished => true | _ => false end.

(** ** The run read off its surroundings *)

(** The POST of a run that has read [image]. *)
Definition groq_request (image : bytes) : request :=
  Request GROQ_API_URL (groq_data (b64encode image)) headers 120.

(** The text a 200 response gives: [response.json()], then the content
    of the first choice's message, then [strip()]. *)
Definition reply_text (resp : response) : outcome str :=
  and_then (json resp) (fun parsed =>
  and_then (message_content parsed) method_strip).

(** What the [except] block emits for [e]. *)
Definition failure_events (e : exn) : list event :=
  [ Emit (error (u "Processing error: " ++ exn_str e));
    Emit (log (u "Processing error: " ++ exn_str e) true) ].

(** The same surroundings, with the other thread's [stop] calls placed by
    [stops]. *)
Definition with_stops (stops : nat -> bool) (W : World) : World :=
  {| read_file := read_file W; time_time := time_time W;
     requests_post := requests_post W; stop_called := stops |}.

(** The response the run receives to its POST, if it gets that far and
    the POST returns. *)
Definition received (W : World) (w : OCRWorker) : option response :=
  match posts_of (run_trace W w) with
  | [r] => match requests_post W r with Ok resp => Some resp | Raise _ => None end
  | _ => None
  end.

(** Two events that are the same, or are the "Sending to" lines of two
    models. *)
Definition same_but_model (m1 m2 : str) (e1 e2 : event) : Prop :=
  e1 = e2 \/
  (e1 = Emit (log (u "Sending to " ++ m1) false) /\
   e2 = Emit (log (u "Sending to " ++ m2) false)).

(** The exception the [try] block of the run raises, if any. *)
Definition raised (W : World) (w : OCRWorker) : option exn :=
  match snd (run_try W (start w)) with
  | Raise e => Some e
  | Ok _ => None
  end.

End Worker.

(* ================================================================== *)
(** * The Qt widgets the shell is made of *)
(* ================================================================== *)

(** The part of each PyQt6 class that main.py uses, with the behaviour Qt
    documents for it. *)
Module Qt.
Import Py.

Inductive QImage :=
| NullImage
| Image (id : nat).

Inductive QPixmap :=
| NullPixmap
| PixmapOfFile (path : str)
| PixmapOfImage (id : nat)
| Scaled (p : QPixmap) (w h : Z).

Definition isNull (p : QPixmap) : bool :=
  match p with NullPixmap => true | _ => false end.

(** [QPixmap.fromImage(image)] *)
Definition fromImage (image : QImage) : QPixmap :=
  match image with
  | NullImage => NullPixmap
  | Image id => PixmapOfImage id
  end.

(** [pixmap.scaled(w, h, KeepAspectRatio, SmoothTransformation)] *)
Definition scaled (p : QPixmap) (w h : Z) : QPixmap := Scaled p w h.

(** A label shows a text or a pixmap. *)
Record QLabel := {
  text : str;
  pixmap : option QPixmap;
  styleSheet : str
}.

(** [setText]: nothing happens when the text is the one already set;
    otherwise the previous content (text or pixmap) is replaced. *)
Definition setText (t : str) (l : QLabel) : QLabel :=
  if str_eqb (text l) t then l
  else {| text := t; pixmap := None; styleSheet := styleSheet l |}.

(** [setPixmap]: the previous content is cleared. *)
Definition setPixmap (p : QPixmap) (l : QLabel) : QLabel :=
  {| text := []; pixmap := Some p; styleSheet := styleSheet l |}.

Definition setStyleSheet (css : str) (l : QLabel) : QLabel :=
  {| text := text l; pixmap := pixmap l; styleSheet := css |}.

Record QPushButton := { isEnabled : bool }.

Definition setEnabled (b : bool) (_ : QPushButton) : QPushButton :=
  {| isEnabled := b |}.

Record QTextEdit := { toPlainText : str }.

Definition setPlainText (t : str) (_ : QTextEdit) : QTextEdit :=
  {| toPlainText := t |}.

Definition QTextEdit_clear (_ : QTextEdit) : QTextEdit :=
  {| toPlainText := [] |}.

(** A combo box that is not editable: its items and the index of the
    current one, -1 when there is none. *)
Record QComboBox := {
  items : list str;
  currentIndex : Z
}.

(** [QComboBox()] *)
Definition QComboBox_new : QComboBox := {| items := []; currentIndex := -1 |}.

Definition count (cb : QComboBox) : Z := Z.of_nat (List.length (items cb)).

(** [addItems]: items go to the end; the first item put into an empty box
    becomes the current one. *)
Definition addItems (texts : list str) (cb : QComboBox) : QComboBox :=
  match texts with
  | [] => cb
  | _ :: _ =>
      {| items := items cb ++ texts;
         currentIndex := match items cb with
                         | [] => 0
                         | _ :: _ => currentIndex cb
                         end |}
  end.

Definition addItem (t : str) (cb : QComboBox) : QComboBox := addItems [t] cb.

Definition clear (_ : QComboBox) : QComboBox :=
  {| items := []; currentIndex := -1 |}.

Fixpoint find_from (i : Z) (xs : list str) (t : str) : Z :=
  match xs with
  | [] => -1
  | x :: xs' => if str_eqb x t then i else find_from (i + 1) xs' t
  end.

(** [findText(text)] with the default flags (exact, case sensitive): the
    index of the first item equal to [text], or -1. *)
Definition findText (t : str) (cb : QComboBox) : Z := find_from 0 (items cb) t.

(** [setCurrentIndex(index)]: an index that is not that of an item leaves
    the box without a current item. *)
Definition setCurrentIndex (index : Z) (cb : QComboBox) : QComboBox :=
  {| items := items cb;
     currentIndex := if ((0 <=? index) && (index <? count cb))%Z
                     then index else -1 |}.

(** [currentText()]: the empty string when there is no current item. *)
Definition currentText (cb : QComboBox) : str :=
  if (0 <=? currentIndex cb)%Z
  then nth (Z.to_nat (currentIndex cb)) (items cb) []
  else [].

(** The data of a drop or of the clipboard: a bitmap, or the
    [toLocalFile()] of each URL. *)
Record QMimeData := {
  imageData : option QImage;
  urls : list str
}.

Definition hasImage (m : QMimeData) : bool :=
  match imageData m with Some _ => true | None => false end.

Definition hasUrls (m : QMimeData) : bool :=
  match urls m with [] => false | _ :: _ => true end.

(** [clipboard.image()] *)
Definition image (m : QMimeData) : QImage :=
  match imageData m with Some i => i | None => NullImage end.

Record QKeyEvent := { key : Z; modifiers : Z }.

Definition Key_V : Z := 86.                    (* 0x56 *)
Definition ControlModifier : Z := 67108864.    (* 0x04000000 *)

Record QThread := { isRunning : bool }.

End Qt.

(* ================================================================== *)
(** * The shell: [class OCRApp(QMainWindow)] *)
(* ================================================================== *)

Module App.
Import Py Eff Qt.

(** The attributes of the window. *)
Record OCRApp := {
  image_path : str;
  ollama_url : str;
  preferred_model : str;
  available_models : list value;
  worker_thread : option QThread;
  worker : option Worker.OCRWorker;
  image_label : QLabel;
  image_info : QLabel;
  process_btn : QPushButton;
  model_dropdown : QComboBox;
  result_text : QTextEdit;
  status_bar : QLabel
}.

(** [self.<attribute> = f(self.<attribute>)] *)
Definition on_image_path (f : str -> str) (s : OCRApp) : OCRApp :=
  {| image_path := f (image_path s);
     ollama_url := ollama_url s;
     preferred_model := preferred_model s;
     available_models := available_models s;
     worker_thread := worker_thread s;
     worker := worker s;
     image_label := image_label s;
     image_info := image_info s;
     process_btn := process_btn s;
     model_dropdown := model_dropdown s;
     result_text := result_text s;
     status_bar := status_bar s |}.

Definition on_available_models (f : list value -> list value) (s : OCRApp) : OCRApp :=
  {| image_path := image_path s;
     ollama_url := ollama_url s;
     preferred_model := preferred_model s;
     available_models := f (available_models s);
     worker_thread := worker_thread s;
     worker := worker s;
     image_label := image_label s;
     image_info := image_info s;
     process_btn := process_btn s;
     model_dropdown := model_dropdown s;
     result_text := result_text s;
     status_bar := status_bar s |}.

Definition on_worker_thread (f : option QThread -> option QThread) (s : OCRApp) : OCRApp :=
  {| image_path := image_path s;
     ollama_url := ollama_url s;
     preferred_model := preferred_model s;
     available_models := available_models s;
     worker_thread := f (worker_thread s);
     worker := worker s;
     image_label := image_label s;
     image_info := image_info s;
     process_btn := process_btn s;
     model_dropdown := model_dropdown s;
     result_text := result_text s;
     status_bar := status_bar s |}.

Definition on_worker (f : option Worker.OCRWorker -> option Worker.OCRWorker) (s : OCRApp) : OCRApp :=
  {| image_path := image_path s;
     ollama_url := ollama_url s;
     preferred_model := preferred_model s;
     available_models := available_models s;
     worker_thread := worker_thread s;
     worker := f (worker s);
     image_label := image_label s;
     image_info := image_info s;
     process_btn := process_btn s;
     model_dropdown := model_dropdown s;
     result_text := result_text s;
     status_bar := status_bar s |}.

Definition on_image_label (f : QLabel -> QLabel) (s : OCRApp) : OCRApp :=
  {| image_path := image_path s;
     ollama_url := ollama_url s;
     preferred_model := preferred_model s;
     available_models := available_models s;
     worker_thread := worker_thread s;
     worker := worker s;
     image_label := f (image_label s);
     image_info := image_info s;
     process_btn := process_btn s;
     model_dropdown := model_dropdown s;
     result_text := result_text s;
     status_bar := status_bar s |}.

Definition on_image_info (f : QLabel -> QLabel) (s : OCRApp) : OCRApp :=
  {| image_path := image_path s;
     ollama_url := ollama_url s;
     preferred_model := preferred_model s;
     available_models := available_models s;
     worker_thread := worker_thread s;
     worker := worker s;
     image_label := image_label s;
     image_info := f (image_info s);
     process_btn := process_btn s;
     model_dropdown := model_dropdown s;
     result_text := result_text s;
     status_bar := status_bar s |}.

Definition on_process_btn (f : QPushButton -> QPushButton) (s : OCRApp) : OCRApp :=
  {| image_path := image_path s;
     ollama_url := ollama_url s;
     preferred_model := preferred_model s;
     available_models := available_models s;
     worker_thread := worker_thread s;
     worker := worker s;
     image_label := image_label s;
     image_info := image_info s;
     process_btn := f (process_btn s);
     model_dropdown := model_dropdown s;
     result_text := result_text s;
     status_bar := status_bar s |}.

Definition on_model_dropdown (f : QComboBox -> QComboBox) (s : OCRApp) : OCRApp :=
  {| image_path := image_path s;
     ollama_url := ollama_url s;
     preferred_model := preferred_model s;
     available_models := available_models s;
     worker_thread := worker_thread s;
     worker := worker s;
     image_label := image_label s;
     image_info := image_info s;
     process_btn := process_btn s;
     model_dropdown := f (model_dropdown s);
     result_text := result_text s;
     status_bar := status_bar s |}.

Definition on_result_text (f : QTextEdit -> QTextEdit) (s : OCRApp) : OCRApp :=
  {| image_path := image_path s;
     ollama_url := ollama_url s;
     preferred_model := preferred_model s;
     available_models := available_models s;
     worker_thread := worker_thread s;
     worker := worker s;
     image_label := image_label s;
     image_info := image_info s;
     process_btn := process_btn s;
     model_dropdown := model_dropdown s;
     result_text := f (result_text s);
     status_bar := status_bar s |}.

Definition on_status_bar (f : QLabel -> QLabel) (s : OCRApp) : OCRApp :=
  {| image_path := image_path s;
     ollama_url := ollama_url s;
     preferred_model := preferred_model s;
     available_models := available_models s;
     worker_thread := worker_thread s;
     worker := worker s;
     image_label := image_label s;
     image_info := image_info s;
     process_btn := process_btn s;
     model_dropdown := model_dropdown s;
     result_text := result_text s;
     status_bar := f (status_bar s) |}.

(** What a slot does besides changing the attributes. *)
Inductive effect :=
| QMessageBox_warning (title message : str)
| QMessageBox_critical (title message : str)
| print (line : str)
| requests_get_call (url : str) (timeout : Z)
| worker_thread_start (w : Worker.OCRWorker)
| worker_thread_quit
| worker_thread_wait
| worker_stop
| event_accept.

(** The surroundings of the GUI thread while it runs one slot. *)
Record Gui := {
  strftime : nat -> str;        (* time.strftime("%H:%M:%S"), k-th call *)
  lower : str -> str;           (* str.lower(); the Unicode case table is
                                   not reproduced *)
  pixmap_loads : str -> bool;   (* QPixmap(path) finds an image it can read *)
  image_label_width : Z;
  image_label_height : Z;
  getOpenFileName : str;        (* the file picked in the dialog, "" if none *)
  clipboard : QMimeData;
  requests_get : str -> Z -> outcome Worker.response
}.

(** A slot in progress: the window, what was done, and the number of
    calls of [strftime]. *)
Record Slot := {
  app : OCRApp;
  done : list effect;
  stamps : nat
}.

Definition UI (A : Type) := prog Gui Slot A.

Definition perform (e : effect) : UI unit :=
  fun _ t => ({| app := app t; done := done t ++ [e]; stamps := stamps t |}, Ok tt).

Definition window : UI OCRApp := fun _ t => (t, Ok (app t)).

Definition assign (f : OCRApp -> OCRApp) : UI unit :=
  fun _ t => ({| app := f (app t); done := done t; stamps := stamps t |}, Ok tt).

Definition around {A} (f : Gui -> A) : UI A := fun g t => (t, Ok (f g)).

Definition time_strftime : UI str :=
  fun g t => ({| app := app t; done := done t; stamps := S (stamps t) |},
              Ok (strftime g (stamps t))).

(** ** [__init__] and [init_ui] *)

Definition newline : str := [10%N].

Definition __init__ : OCRApp :=
  {| image_path := [];
     ollama_url := u "http://localhost:11434";
     preferred_model := u "gemma:2b";
     available_models := [];
     worker_thread := None;
     worker := None;
     image_label :=
       {| text := u "Click to select an image" ++ newline ++
                  u "or drag & drop here" ++ newline ++
                  u "or paste from clipboard";
          pixmap := None;
          styleSheet := newline ++ u "            border: 2px dashed #aaa;" ++
                        newline ++ u "            min-height: 200px;" ++
                        newline ++ u "        " |};
     image_info := {| text := u "No image loaded"; pixmap := None; styleSheet := [] |};
     process_btn := {| isEnabled := true |};
     model_dropdown := addItem (u "Loading models...") QComboBox_new;
     result_text := {| toPlainText := [] |};
     status_bar :=
       {| text := u "Ready";
          pixmap := None;
          styleSheet := newline ++ u "            border-top: 1px solid #ddd;" ++
                        newline ++ u "            padding: 5px;" ++
                        newline ++ u "            color: #666;" ++
                        newline ++ u "        " |} |}.

(** ** The methods *)

(** [def update_status(self, message, error=False)] *)
Definition update_status (message : str) (error : bool) : UI unit :=
  assign (on_status_bar (setText message)) ;;
  if error then assign (on_status_bar (setStyleSheet (u "color: #d32f2f;")))
  else assign (on_status_bar (setStyleSheet (u "color: #666;"))).

Definition esc_red : str := 27%N :: u "[91m".
Definition esc_reset : str := 27%N :: u "[0m".

(** [def log(self, message, error=False)] *)
Definition log (message : str) (error : bool) : UI unit :=
  timestamp <- time_strftime ;;
  let log_msg := u "[" ++ timestamp ++ u "] " ++ message in
  if error then perform (print (esc_red ++ log_msg ++ esc_reset))
  else perform (print log_msg).

(** [def log_message(self, message, is_error)] *)
Definition log_message (message : str) (is_error : bool) : UI unit :=
  timestamp <- time_strftime ;;
  let color := if is_error then esc_red else [] in
  let reset := if is_error then esc_reset else [] in
  perform (print (color ++ u "[" ++ timestamp ++ u "] " ++ message ++ reset)).

(** [def load_pixmap(self, pixmap)] *)
Definition load_pixmap (pixmap : QPixmap) : UI unit :=
  if negb (isNull pixmap) then
    w <- around image_label_width ;;
    h <- around image_label_height ;;
    let scaled := scaled pixmap (w - 20) (h - 20) in
    assign (on_image_label (setPixmap scaled)) ;;
    assign (on_image_label (setText []))
  else ret tt.

(** [def load_image(self, file_path)] *)
Definition load_image (file_path : str) : UI unit :=
  assign (on_image_path (fun _ => file_path)) ;;
  assign (on_image_info (setText (last_component file_path))) ;;
  loads <- around (fun g => pixmap_loads g file_path) ;;
  let pixmap := if loads then PixmapOfFile file_path else NullPixmap in
  load_pixmap pixmap ;;
  log (u "Loaded image: " ++ file_path) false ;;
  update_status (u "Loaded: " ++ last_component file_path) false.

(** [def select_image(self)] *)
Definition select_image : UI unit :=
  file_path <- around getOpenFileName ;;
  if truthy file_path then load_image file_path else ret tt.

(** [def image_click_event(self, event)] *)
Definition image_click_event : UI unit := select_image.

Definition image_suffixes : list str :=
  [u ".png"; u ".jpg"; u ".jpeg"; u ".bmp"; u ".gif"].

(** The loop of [dropEvent] and [keyPressEvent]:
    [for url in urls: file_path = url.toLocalFile(); if
    file_path.lower().endswith(...): self.load_image(file_path); break] *)
Fixpoint load_first_image (file_paths : list str) : UI unit :=
  match file_paths with
  | [] => ret tt
  | file_path :: rest =>
      lowered <- around (fun g => lower g file_path) ;;
      if endswith_any lowered image_suffixes then load_image file_path
      else load_first_image rest
  end.

(** [def dropEvent(self, event)] *)
Definition dropEvent (mimeData : QMimeData) : UI unit :=
  load_first_image (urls mimeData).

(** [def keyPressEvent(self, event)] *)
Definition keyPressEvent (event : QKeyEvent) : UI unit :=
  if ((key event =? Key_V) && (modifiers event =? ControlModifier))%Z then
    mime_data <- around clipboard ;;
    if hasImage mime_data then
      let qimage := image mime_data in
      load_pixmap (fromImage qimage)
    else if hasUrls mime_data then load_first_image (urls mime_data)
    else ret tt
  else ret tt.

(** [[f(x) for x in xs]]: the first element on which [f] raises ends the
    comprehension. *)
Fixpoint comprehension {A B} (f : A -> outcome B) (xs : list A) : outcome (list B) :=
  match xs with
  | [] => Ok []
  | x :: xs' =>
      match f x with
      | Raise e => Raise e
      | Ok y =>
          match comprehension f xs' with
          | Raise e => Raise e
          | Ok ys => Ok (y :: ys)
          end
      end
  end.

(** The strings of a list that [join] has accepted (all its elements are
    [str] then). *)
Definition texts_of (xs : list value) : list str :=
  flat_map (fun x => match x with VStr s => [s] | _ => [] end) xs.

(** [requests.get(url, timeout=timeout)] *)
Definition get_request (url : str) (timeout : Z) : UI Worker.response :=
  perform (requests_get_call url timeout) ;;
  r <- around (fun g => requests_get g url timeout) ;;
  lift r.

(** [[model["name"] for model in response.json().get("models", [])]] *)
Definition model_names (response : Worker.response) : outcome (list value) :=
  and_then (Worker.json response) (fun parsed =>
  and_then (get_default parsed (u "models") (VList [])) (fun models =>
  and_then (iterate models) (fun each =>
  comprehension (fun model => getitem_str model (u "name")) each))).

(** [def check_ollama_connection(self)] *)
Definition check_ollama_connection : UI unit :=
  update_status (u "Connecting to Ollama...") false ;;
  log (u "Attempting to connect to Ollama...") false ;;
  try_except
    (self <- window ;;
     response <- get_request (ollama_url self ++ u "/api/tags") 5 ;;
     if (Worker.status_code response =? 200)%Z then
       names <- lift (model_names response) ;;
       assign (on_available_models (fun _ => names)) ;;
       joined <- lift (join_values (u ", ") names) ;;
       log (u "Available models: " ++ joined) false ;;
       assign (on_model_dropdown clear) ;;
       (match names with
        | [] => ret tt
        | _ :: _ =>
            assign (on_model_dropdown (addItems (texts_of names))) ;;
            self <- window ;;
            if existsb (fun model => contains model (preferred_model self))
                       (texts_of names)
            then
              let index := findText (preferred_model self) (model_dropdown self) in
              assign (on_model_dropdown (setCurrentIndex index))
            else ret tt
        end) ;;
       update_status (u "Connected | " ++ str_of_N (N.of_nat (List.length names)) ++
                      u " models") false
     else
       update_status (u "Connection failed") true ;;
       log (u "Connection failed: " ++ Worker.text response) true)
    (fun e =>
       update_status (u "Error: " ++ exn_str e) true ;;
       log (u "Connection error: " ++ exn_str e) true).

(** [def run_ocr(self)]: the second definition of the class body, which
    replaces the first. *)
Definition run_ocr : UI unit :=
  self <- window ;;
  if negb (truthy (image_path self)) then
    perform (QMessageBox_warning (u "Warning") (u "Please select an image first"))
  else if negb (truthy (currentText (model_dropdown self))) then
    perform (QMessageBox_warning (u "Warning") (u "Please select a model first"))
  else
    assign (on_process_btn (setEnabled false)) ;;
    assign (on_result_text QTextEdit_clear) ;;
    (* self.worker_thread = QThread() *)
    assign (on_worker_thread (fun _ => Some {| isRunning := false |})) ;;
    self <- window ;;
    let w := Worker.__init__ (image_path self)
                             (currentText (model_dropdown self))
                             (ollama_url self) in
    assign (on_worker (fun _ => Some w)) ;;
    (* self.worker_thread.start(), whose started signal calls worker.run *)
    perform (worker_thread_start w) ;;
    assign (on_worker_thread (fun _ => Some {| isRunning := true |})).

(** [def handle_result(self, text)] *)
Definition handle_result (text : str) : UI unit :=
  assign (on_result_text (setPlainText text)).

(** [def handle_error(self, error_msg)] *)
Definition handle_error (error_msg : str) : UI unit :=
  perform (QMessageBox_critical (u "Error") error_msg) ;;
  update_status (u "Error occurred") true.

(** [def cleanup_thread(self)] *)
Definition cleanup_thread : UI unit :=
  self <- window ;;
  (match worker_thread self with
   | Some _ =>
       perform worker_thread_quit ;;
       perform worker_thread_wait ;;
       assign (on_worker_thread (fun _ => None))
   | None => ret tt
   end) ;;
  assign (on_process_btn (setEnabled true)).

(** [def closeEvent(self, event)] *)
Definition closeEvent : UI unit :=
  self <- window ;;
  (match worker_thread self with
   | Some th =>
       if isRunning th then
         perform worker_stop ;;
         perform worker_thread_quit ;;
         perform worker_thread_wait
       else ret tt
   | None => ret tt
   end) ;;
  perform event_accept.

(** ** Events and the slots they reach *)

(** What the user (or the start-up timer) does to the window. *)
Inductive user_event :=
| timer_timeout           (* QTimer.singleShot(100, self.check_ollama_connection) *)
| image_label_mousePress  (* self.image_label.mousePressEvent *)
| drop (mimeData : QMimeData)
| keyPress (event : QKeyEvent)
| process_btn_click       (* a click on the "Run OCR" button *)
| close.

(** A disabled button does not emit [clicked]; an enabled one reaches the
    slot of [self.process_btn.clicked.connect(self.run_ocr)]. *)
Definition on_user (ev : user_event) : UI unit :=
  match ev with
  | timer_timeout => check_ollama_connection
  | image_label_mousePress => image_click_event
  | drop mimeData => dropEvent mimeData
  | keyPress event => keyPressEvent event
  | process_btn_click =>
      self <- window ;;
      if isEnabled (process_btn self) then run_ocr else ret tt
  | close => closeEvent
  end.

(** The [connect] calls of [run_ocr]: the slot each worker signal reaches. *)
Definition on_signal (s : Worker.signal) : UI unit :=
  match s with
  | Worker.result text => handle_result text
  | Worker.error error_msg => handle_error error_msg
  | Worker.status message => update_status message false
  | Worker.log message is_error => log_message message is_error
  | Worker.finished => cleanup_thread
  end.

(** One slot run to its end on a window. *)
Definition run_slot (g : Gui) (m : UI unit) (a : OCRApp) : OCRApp * list effect :=
  let t := fst (m g {| app := a; done := []; stamps := 0 |}) in
  (app t, done t).

Definition started (effs : list effect) : list Worker.OCRWorker :=
  flat_map (fun e => match e with worker_thread_start w => [w] | _ => [] end) effs.

(** ** The window together with its worker threads *)

(** A job is in flight from the start of its thread until the window has
    handled its [finished] signal: [in_flight] holds, for each such job,
    the signals its run emits that are still queued for the GUI thread.
    [posts] lists the POST requests of all runs started so far. *)
Record System := {
  shell : OCRApp;
  in_flight : list (list Worker.signal);
  posts : list Worker.request
}.

Definition boot : System :=
  {| shell := __init__; in_flight := []; posts := [] |}.

(** What the GUI thread does next: it handles a user event, or the next
    queued signal of the [i]-th job in flight. *)
Inductive label :=
| user (ev : user_event)
| deliver (i : nat).

Fixpoint take_signal (i : nat) (qs : list (list Worker.signal))
    : option (Worker.signal * list (list Worker.signal)) :=
  match qs with
  | [] => None
  | q :: rest =>
      match i with
      | O =>
          match q with
          | [] => None
          | [s] => Some (s, rest)
          | s :: q' => Some (s, q' :: rest)
          end
      | S i' =>
          match take_signal i' rest with
          | Some (s, rest') => Some (s, q :: rest')
          | None => None
          end
      end
  end.

(** The slot a label runs, and the queues it leaves. *)
Definition slot_of (l : label) (sys : System)
    : option (UI unit * list (list Worker.signal)) :=
  match l with
  | user ev => Some (on_user ev, in_flight sys)
  | deliver i =>
      match take_signal i (in_flight sys) with
      | Some (s, qs) => Some (on_signal s, qs)
      | None => None
      end
  end.

(** One step, in the surroundings [g] of the GUI thread; a worker thread
    started by the step runs in the surroundings [W]. *)
Definition step (g : Gui) (W : Worker.World) (l : label) (sys : System) : System :=
  match slot_of l sys with
  | None => sys
  | Some (slot, qs) =>
      let '(a, effs) := run_slot g slot (shell sys) in
      let runs := map (Worker.run_trace W) (started effs) in
      {| shell := a;
         in_flight := qs ++ map Worker.signals_of runs;
         posts := posts sys ++ flat_map Worker.posts_of runs |}
  end.

Definition steps (ls : list (Gui * Worker.World * label)) (sys : System) : System :=
  fold_left (fun s '(g, W, l) => step g W l s) ls sys.

Definition reachable (sys : System) : Prop :=
  exists ls, steps ls boot = sys.

(** The signal a label delivers, if any. *)
Definition delivered (l : label) (sys : System) : option Worker.signal :=
  match l with
  | user _ => None
  | deliver i =>
      match take_signal i (in_flight sys) with
      | Some (s, _) => Some s
      | None => None
      end
  end.

(** ** Vocabulary of the single-flight argument *)

(** A block that leaves the "Run OCR" button as it is and starts no
    thread. *)
Definition quiet {A} (m : UI A) : Prop :=
  forall g t,
    process_btn (app (fst (m g t))) = process_btn (app t) /\
    started (done (fst (m g t))) = started (done t).

(** The queued signals of a run that is not over: [finished] is there,
    once, and last. *)
Definition queue_ok (q : list Worker.signal) : Prop :=
  exists before,
    q = before ++ [Worker.finished] /\
    Forall (fun s => s <> Worker.finished) before.

(** Either no job is in flight and the button is enabled, or one is and
    the button is disabled. *)
Definition single_flight (sys : System) : Prop :=
  (in_flight sys = [] /\ isEnabled (process_btn (shell sys)) = true) \/
  (exists q, in_flight sys = [q] /\ queue_ok q /\
             isEnabled (process_btn (shell sys)) = false).

(** Ctrl+V *)
Definition ctrl_v : QKeyEvent := {| key := Key_V; modifiers := ControlModifier |}.

(** The entry of the model list for a model called [name]. *)
Definition model_entry (name : str) : value := VDict [(u "name", VStr name)].

End App.

(* ================================================================== *)
(** * The OCR request as the specification words it *)
(* ================================================================== *)

Module Spec.
Import Py.

(** Section 6, "OCR request": the JSON body
    [{messages: [{role: "user", content: [{type: "text", text: <prompt>},
    {type: "image_url", image_url: {url: "data:image/jpeg;base64," + <b64>}}]}],
    model: <fixed model string>, stream: false}]. *)
Definition body (prompt b64 model_string : str) : value :=
  VDict
    [ (u "messages",
       VList
         [ VDict
             [ (u "role", VStr (u "user"));
               (u "content",
                VList
                  [ VDict [ (u "type", VStr (u "text")); (u "text", VStr prompt) ];
                    VDict [ (u "type", VStr (u "image_url"));
                            (u "image_url",
                             VDict [ (u "url",
                                      VStr (u "data:image/jpeg;base64," ++ b64)) ]) ] ]) ] ]);
      (u "model", VStr model_string);
      (u "stream", VBool false) ].

(** The header [Authorization: Bearer <embedded credential>]. *)
Definition authorization (credential : str) : str * str :=
  (u "Authorization", u "Bearer " ++ credential).

(** The timeout, in seconds. *)
Definition timeout : Z := 120.

End Spec.

(* ================================================================== *)
(** * Sample surroundings *)
(* ================================================================== *)

Module Examples.
Import Py Qt.

Definition cat_png : str := u "/home/user/cat.png".

Definition missing_png : str := u "/home/user/missing.png".

(** The first bytes of a PNG file. *)
Definition png_bytes : bytes :=
  [Byte.x89; Byte.x50; Byte.x4e; Byte.x47; Byte.x0d; Byte.x0a; Byte.x1a; Byte.x0a].

(** A disk that holds [cat_png] only. *)
Definition disk (path : str) : outcome bytes :=
  if str_eqb path cat_png then Ok png_bytes
  else Raise (Exn "FileNotFoundError"
                  (u "[Errno 2] No such file or directory: '" ++ path ++ u "'")).

Definition clock (k : nat) : float :=
  match k with
  | 1 => 100.5
  | 4 => 100.625
  | _ => 102.75
  end%float.

Definition quoted (s : string) : str := 34%N :: u s ++ [34%N].

(** A chat completion whose first choice has the given content. *)
Definition completion (content : string) : Worker.response :=
  {| Worker.status_code := 200;
     Worker.text := u "{" ++ quoted "choices" ++ u ":[{" ++ quoted "message" ++
                    u ":{" ++ quoted "content" ++ u ":" ++ quoted content ++ u "}}]}";
     Worker.json :=
       Ok (VDict [(u "choices",
                   VList [VDict [(u "message",
                                  VDict [(u "content", VStr (u content))])]])]) |}.

Definition hello : Worker.response := completion "  Hello World  ".

Definition rate_limited : Worker.response :=
  {| Worker.status_code := 429;
     Worker.text := u "rate limited";
     Worker.json := Raise (Exn "JSONDecodeError"
                               (u "Expecting value: line 1 column 1 (char 0)")) |}.

(** Surroundings in which every POST gets [reply], and the other thread
    calls [stop] just before the POST. *)
Definition world (reply : outcome Worker.response) : Worker.World :=
  {| Worker.read_file := disk;
     Worker.time_time := clock;
     Worker.requests_post := fun _ => reply;
     Worker.stop_called := fun k => Nat.eqb k 8 |}.

Definition cat_worker : Worker.OCRWorker :=
  Worker.__init__ cat_png (u "gemma:2b") (u "http://localhost:11434").

Definition lost_worker : Worker.OCRWorker :=
  Worker.__init__ missing_png (u "gemma:2b") (u "http://localhost:11434").

(** [str.lower()] on ASCII letters. *)
Definition ascii_lower (s : str) : str :=
  map (fun c => if ((65 <=? c) && (c <=? 90))%N then (c + 32)%N else c) s.

(** The reply of the model-listing endpoint for the given names. *)
Definition tags (names : list str) : Worker.response :=
  {| Worker.status_code := 200;
     Worker.text := u "{" ++ quoted "models" ++ u ":[...]}";
     Worker.json := Ok (VDict [(u "models", VList (map App.model_entry names))]) |}.

Definition no_mime : QMimeData := {| imageData := None; urls := [] |}.

Definition bitmap : QMimeData := {| imageData := Some (Image 0); urls := [] |}.

(** Surroundings of the GUI thread: the models the endpoint lists, the
    file the user picks in the dialog, and the clipboard. *)
Definition gui (names : list str) (picked : str) (clip : QMimeData) : App.Gui :=
  {| App.strftime := fun _ => u "12:00:00";
     App.lower := ascii_lower;
     App.pixmap_loads := fun path => str_eqb path cat_png;
     App.image_label_width := 580;
     App.image_label_height := 250;
     App.getOpenFileName := picked;
     App.clipboard := clip;
     App.requests_get := fun _ _ => Ok (tags names) |}.

(** A catalog in which the preferred model ["gemma:2b"] is only part of
    an entry. *)
Definition substring_only : list str := [u "llama3:latest"; u "gemma:2b-instruct"].

(** The window once the user has picked [cat_png] and clicked "Run OCR",
    the request being answered by [hello]. *)
Definition busy : App.System :=
  App.steps
    [ (gui [] cat_png no_mime, world (Ok hello), App.user App.image_label_mousePress);
      (gui [] cat_png no_mime, world (Ok hello), App.user App.process_btn_click) ]
    App.boot.

(** The window once the user has picked [cat_png]. *)
Definition ready : App.System :=
  App.steps
    [ (gui [] cat_png no_mime, world (Ok hello), App.user App.image_label_mousePress) ]
    App.boot.

(** The busy window once all the signals of the run but [finished] have
    been handled. *)
Definition finishing : App.System :=
  App.steps
    (repeat (gui [] cat_png no_mime, world (Ok hello), App.deliver 0) 7)
    busy.

End Examples.

(* ================================================================== *)
(** * Vocabulary of the further properties *)
(* ================================================================== *)

Module More.
Import Py Worker.

(** A string of white space only. *)
Definition blank (s : str) : Prop := Forall (fun c => isspace c = true) s.

(** The same surroundings, in which every POST is answered by [r]. *)
Definition answering (r : outcome response) (W : World) : World :=
  {| read_file := read_file W; time_time := time_time W;
     requests_post := fun _ => r; stop_called := stop_called W |}.
End More.

Module Rest.
Import Py Eff Qt App.

(** [self.image_label.pixmap()]: a null pixmap when the label shows none. *)
Definition QLabel_pixmap (l : QLabel) : QPixmap :=
  match pixmap l with Some p => p | None => NullPixmap end.

(** [def resizeEvent(self, event)]. In PyQt6 [self.image_label.pixmap()]
    is a [QPixmap] object, null when the label shows none, so that whether
    the test lets a null pixmap through depends on what Python takes that
    object for: [null_is_true] says so. [super().resizeEvent(event)] is
    Qt's own handling of the event; the size the label gets is read from
    the surroundings. *)
Definition resizeEvent (null_is_true : bool) : UI unit :=
  self <- window ;;
  if (if isNull (QLabel_pixmap (image_label self)) then null_is_true else true) then
    let pixmap := QLabel_pixmap (image_label self) in
    load_pixmap pixmap
  else ret tt.

(** [def dragEnterEvent(self, event)]: whether the drag is accepted. *)
Definition dragEnterEvent (mimeData : QMimeData) : bool := hasUrls mimeData.

(** A path that [dropEvent] and the URL branch of [keyPressEvent] take
    for an image. *)
Definition image_path_like (g : Gui) (file_path : str) : bool :=
  endswith_any (lower g file_path) image_suffixes.

(** The window after the slots of the given signals, each handled in its
    own surroundings of the GUI thread. *)
Definition after_signals (deliveries : list (Gui * Worker.signal)) (a : OCRApp)
    : OCRApp :=
  fold_left (fun a d => fst (run_slot (fst d) (on_signal (snd d)) a)) deliveries a.

(** The GUI thread handles the next signal of the first job, once for
    each of the given surroundings. *)
Definition deliveries_of (gWs : list (Gui * Worker.World))
    : list (Gui * Worker.World * label) :=
  map (fun gW => (fst gW, snd gW, deliver 0)) gWs.

(** The worker [run_ocr] builds on a window. *)
Definition worker_of (a : OCRApp) : Worker.OCRWorker :=
  Worker.__init__ (image_path a) (currentText (model_dropdown a)) (ollama_url a).

(** A window on which a click on "Run OCR" starts a job. *)
Definition can_submit (sys : System) : Prop :=
  in_flight sys = [] /\
  isEnabled (process_btn (shell sys)) = true /\
  image_path (shell sys) <> [] /\
  currentText (model_dropdown (shell sys)) <> [].

(** A click on "Run OCR", then the handling of every signal of the job. *)
Definition whole_job (g : Gui) (W : Worker.World) (gWs : list (Gui * Worker.World))
    (sys : System) : System :=
  steps ((g, W, user process_btn_click) :: deliveries_of gWs) sys.

(** A block that leaves a part of the window as it is. *)
Definition leaves {A B} (part : OCRApp -> B) (m : UI A) : Prop :=
  forall g t, part (app (fst (m g t))) = part (app t).


(** The file name label names the selected file, or says that there is
    none. *)
Definition names_file (a : OCRApp) : Prop :=
  (image_path a = [] /\ text (image_info a) = u "No image loaded") \/
  text (image_info a) = last_component (image_path a).

(** The part of the window that [load_image] selects. *)
Definition selection (a : OCRApp) : str * QLabel := (image_path a, image_info a).

(** The addresses and names that [__init__] fixes. *)
Definition settings (a : OCRApp) : str * str := (ollama_url a, preferred_model a).

(** A block that keeps a property of the window. *)
Definition preserves {A} (P : OCRApp -> Prop) (m : UI A) : Prop :=
  forall g t, P (app t) -> P (app (fst (m g t))).

End Rest.

(* ================================================================== *)
(** * Further sample surroundings *)
(* ================================================================== *)

Module Scenes.
Import Py Qt Examples.

(** A 200 reply whose content is white space only. *)
Definition blank_reply : Worker.response := completion "   ".

(** A 200 reply that is a JSON object without ["choices"]. *)
Definition empty_object : Worker.response :=
  {| Worker.status_code := 200;
     Worker.text := u "{}";
     Worker.json := Ok (VDict []) |}.

(** A 200 reply whose list of choices is empty. *)
Definition no_choice : Worker.response :=
  {| Worker.status_code := 200;
     Worker.text := u "{" ++ quoted "choices" ++ u ":[]}";
     Worker.json := Ok (VDict [(u "choices", VList [])]) |}.

(** A 429 reply whose body is a JSON string. *)
Definition rate_limited_json : Worker.response :=
  {| Worker.status_code := 429;
     Worker.text := quoted "rate limited";
     Worker.json := Ok (VStr (u "rate limited")) |}.

(** The same reply in a client whose parser refuses it. *)
Definition rate_limited_text : Worker.response :=
  {| Worker.status_code := 429;
     Worker.text := quoted "rate limited";
     Worker.json := Raise (Exn "JSONDecodeError"
                               (u "Expecting value: line 1 column 1 (char 0)")) |}.

Definition notes_txt : str := u "/home/user/notes.txt".

Definition CAT_PNG : str := u "/home/user/CAT.PNG".

Definition refused : exn := Exn "ConnectionError" (u "Connection refused").

(** Surroundings of the GUI thread in which the model-listing endpoint
    answers [reply], in a label of the given size. *)
Definition gui_answered (reply : outcome Worker.response) (width height : Z)
    : App.Gui :=
  {| App.strftime := fun _ => u "12:00:00";
     App.lower := ascii_lower;
     App.pixmap_loads := fun path => str_eqb path cat_png;
     App.image_label_width := width;
     App.image_label_height := height;
     App.getOpenFileName := [];
     App.clipboard := no_mime;
     App.requests_get := fun _ _ => reply |}.

Definition offline : App.Gui := gui_answered (Raise refused) 580 250.

Definition server_error : Worker.response :=
  {| Worker.status_code := 500;
     Worker.text := u "Internal Server Error";
     Worker.json := Raise (Exn "JSONDecodeError"
                               (u "Expecting value: line 1 column 1 (char 0)")) |}.

(** A model list whose only entry has a number for a name. *)
Definition numbered : Worker.response :=
  {| Worker.status_code := 200;
     Worker.text := u "{" ++ quoted "models" ++ u ":[{" ++ quoted "name" ++ u ":7}]}";
     Worker.json := Ok (VDict [(u "models", VList [VDict [(u "name", VInt 7)]])]) |}.

(** The window once the user has picked [missing_png], which is not on
    the disk. *)
Definition ready_missing : App.System :=
  App.steps
    [ (gui [] missing_png no_mime, world (Ok hello), App.user App.image_label_mousePress) ]
    App.boot.

End Scenes.

(* ================================================================== *)
(** * The Python operations on sample values *)
(* ================================================================== *)

Section PythonChecks.
Import Py.

Example strip_hello : strip (u "  Hello World  ") = u "Hello World".
Proof. reflexivity. Qed.

Example strip_unicode_space :
  strip (9%N :: 160%N :: 12288%N :: u "a b" ++ [8232%N; 10%N]) = u "a b".
Proof. reflexivity. Qed.

Example b64encode_Man :
  b64encode [Byte.x4d; Byte.x61; Byte.x6e] = u "TWFu" /\
  b64encode [Byte.x4d; Byte.x61] = u "TWE=" /\
  b64encode [Byte.x4d] = u "TQ==" /\
  b64encode [Byte.xff; Byte.xfe; Byte.xfd; Byte.x00] = u "//79AA==".
Proof. repeat split; reflexivity. Qed.

Example fmt_2f_rounds :
  fmt_2f 0.125 = u "0.12" /\ fmt_2f 0.375 = u "0.38" /\
  fmt_2f 2.25 = u "2.25" /\ fmt_2f (-0.0) = u "-0.00" /\
  fmt_2f 1e22 = u "10000000000000000000000.00".
Proof. repeat split; vm_compute; reflexivity. Qed.

Example last_component_samples :
  last_component (u "/home/user/cat.png") = u "cat.png" /\
  last_component (u "cat.png") = u "cat.png" /\
  last_component (u "dir/") = [].
Proof. repeat split; reflexivity. Qed.

Example contains_samples :
  contains (u "gemma:2b-instruct") (u "gemma:2b") = true /\
  contains (u "gemma") (u "gemma:2b") = false /\
  contains (u "llama3") [] = true.
Proof. repeat split; reflexivity. Qed.

Example exception_messages :
  getitem_int VNone 0 = Raise (Exn "TypeError" (u "'NoneType' object is not subscriptable")) /\
  getitem_int (VList []) 0 = Raise (Exn "IndexError" (u "list index out of range")) /\
  get (VList []) (u "message") =
    Raise (Exn "AttributeError" (u "'list' object has no attribute 'get'")) /\
  method_strip (VInt 3) =
    Raise (Exn "AttributeError" (u "'int' object has no attribute 'strip'")) /\
  join_values (u ", ") [VStr (u "a"); VInt 1] =
    Raise (Exn "TypeError" (u "sequence item 1: expected str instance, int found")).
Proof. repeat split; reflexivity. Qed.

Example prompt_length : List.length Worker.prompt = 220.
Proof. reflexivity. Qed.

End PythonChecks.

(* ================================================================== *)
(** * The dispatcher: what a run emits *)
(* ================================================================== *)

Section RunFacts.
Import Py Eff Worker.

(** ** Running [run] by hand *)

Lemma image_path_land b s : image_path (land b s) = image_path s.
Proof. destruct b; reflexivity. Qed.

Lemma model_land b s : model (land b s) = model s.
Proof. destruct b; reflexivity. Qed.

Lemma bind_emit A s (k : unit -> M A) W t :
  bind (emit s) k W t =
  k tt W {| self := land (stop_called W (pc t)) (self t); pc := S (pc t);
            trace := trace t ++ [Emit s] |}.
Proof. reflexivity. Qed.

Lemma bind_time A (k : float -> M A) W t :
  bind (time tt) k W t =
  k (time_time W (pc t)) W
    {| self := land (stop_called W (pc t)) (self t); pc := S (pc t);
       trace := trace t ++ [] |}.
Proof. reflexivity. Qed.

Lemma bind_attr A B (f : OCRWorker -> B) (k : B -> M A) W t :
  bind (attr f) k W t =
  k (f (land (stop_called W (pc t)) (self t))) W
    {| self := land (stop_called W (pc t)) (self t); pc := S (pc t);
       trace := trace t ++ [] |}.
Proof. reflexivity. Qed.

Lemma bind_open_read A path (k : bytes -> M A) W t :
  bind (open_read path) k W t =
  let t' := {| self := land (stop_called W (pc t)) (self t); pc := S (pc t);
               trace := trace t ++ [] |} in
  match read_file W path with
  | Ok image => k image W t'
  | Raise e => (t', Raise e)
  end.
Proof. unfold bind, open_read, action. destruct (read_file W path); reflexivity. Qed.

Lemma bind_post A url data hs timeout (k : response -> M A) W t :
  bind (post url data hs timeout) k W t =
  let r := Request url data hs timeout in
  let t' := {| self := land (stop_called W (pc t)) (self t); pc := S (pc t);
               trace := trace t ++ [Post r] |} in
  match requests_post W r with
  | Ok resp => k resp W t'
  | Raise e => (t', Raise e)
  end.
Proof.
  unfold bind, post, action. destruct (requests_post W _); reflexivity.
Qed.

Lemma bind_lift A B (o : outcome B) (k : B -> M A) W t :
  bind (lift o) k W t =
  match o with
  | Ok b => k b W t
  | Raise e => (t, Raise e)
  end.
Proof. unfold bind, lift. destruct o; reflexivity. Qed.

Lemma emit_last s W t :
  emit s W t =
  ({| self := land (stop_called W (pc t)) (self t); pc := S (pc t);
      trace := trace t ++ [Emit s] |}, Ok tt).
Proof. reflexivity. Qed.

#[local] Opaque bind emit time attr open_read post lift u fmt_2f b64encode.

Ltac exec1 :=
  lazymatch goal with
  | |- context [bind (emit _) _ _ _] => rewrite bind_emit
  | |- context [bind (time _) _ _ _] => rewrite bind_time
  | |- context [bind (attr _) _ _ _] => rewrite bind_attr
  | |- context [bind (open_read _) _ _ _] => rewrite bind_open_read
  | |- context [bind (post _ _ _ _) _ _ _] => rewrite bind_post
  | |- context [bind (lift _) _ _ _] => rewrite bind_lift
  | |- context [emit _ _ _] => rewrite emit_last
  end.

Ltac exec :=
  repeat exec1;
  cbn [self pc trace fst snd app start];
  rewrite ?image_path_land, ?model_land.

Lemma run_try_cases W w :
  let r := run_try W (start w) in
  (trace (fst r), snd r) =
  match read_file W (image_path w) with
  | Raise e => ([Emit (status (u "Processing image..."))], Raise e)
  | Ok image =>
      let sent :=
        [ Emit (status (u "Processing image..."));
          Emit (log (u "Image encoded in " ++
                     fmt_2f (time_time W 4 - time_time W 1) ++ u "s") false);
          Emit (log (u "Sending to " ++ model w) false);
          Post (groq_request image) ] in
      match requests_post W (groq_request image) with
      | Raise e => (sent, Raise e)
      | Ok resp =>
          if (status_code resp =? 200)%Z then
            match reply_text resp with
            | Raise e => (sent, Raise e)
            | Ok stripped =>
                let elapsed := (time_time W 9 - time_time W 1)%float in
                (sent ++
                 [ Emit (result stripped);
                   Emit (status (u "Done in " ++ fmt_2f elapsed ++ u "s"));
                   Emit (log (u "OCR completed in " ++ fmt_2f elapsed ++ u "s") false);
                   Emit (log (text resp) true) ], Ok tt)
            end
          else
            (sent ++
             [ Emit (error (u "API error (Groq): " ++ text resp));
               Emit (log (u "API error (Groq): " ++ text resp) true) ], Ok tt)
      end
  end.
Proof.
  unfold run_try. exec.
  destruct (read_file W (image_path w)) as [image|e]; [|reflexivity].
  exec. fold (groq_request image).
  destruct (requests_post W (groq_request image)) as [resp|e]; [|reflexivity].
  cbv zeta.
  destruct (status_code resp =? 200)%Z.
  - unfold reply_text, and_then.
    exec. destruct (json resp) as [parsed|e]; [|reflexivity].
    exec. destruct (message_content parsed) as [content|e]; [|reflexivity].
    exec. destruct (method_strip content) as [stripped|e]; [|reflexivity].
    exec. reflexivity.
  - exec. reflexivity.
Qed.

Lemma run_trace_cases W w :
  run_trace W w =
  trace (fst (run_try W (start w))) ++
  match snd (run_try W (start w)) with
  | Raise e => failure_events e
  | Ok _ => []
  end ++ [Emit finished].
Proof.
  unfold run_trace, run, try_finally, try_except.
  destruct (run_try W (start w)) as [t [[]|e]]; cbn [fst snd].
  - exec. reflexivity.
  - unfold run_except. exec. unfold failure_events.
    rewrite <- !app_assoc. reflexivity.
Qed.

(** The six ways a run can go. *)
Ltac run_cases W w :=
  let H := fresh "Hrun" in
  pose proof (run_try_cases W w) as H; cbv zeta in H;
  rewrite ?(run_trace_cases W w);
  let image := fresh "image" in
  let resp := fresh "resp" in
  let e := fresh "e" in
  let stripped := fresh "stripped" in
  destruct (read_file W (image_path w)) as [image|e] eqn:Hread;
  [ destruct (requests_post W (groq_request image)) as [resp|e] eqn:Hpost;
    [ destruct (status_code resp =? 200)%Z eqn:Hstatus;
      [ destruct (reply_text resp) as [stripped|e] eqn:Hreply | ] | ] | ];
  let Ht := fresh "Htrace" in
  let Ho := fresh "Hout" in
  injection H as Ht Ho; rewrite ?Ht, ?Ho.

Lemma posts_of_run W w :
  posts_of (run_trace W w) =
  match read_file W (image_path w) with
  | Ok image => [groq_request image]
  | Raise _ => []
  end.
Proof. run_cases W w; reflexivity. Qed.

Lemma received_cases W w :
  received W w =
  match read_file W (image_path w) with
  | Ok image =>
      match requests_post W (groq_request image) with
      | Ok resp => Some resp
      | Raise _ => None
      end
  | Raise _ => None
  end.
Proof.
  unfold received. rewrite posts_of_run.
  destruct (read_file W (image_path w)); reflexivity.
Qed.

(** What makes the [try] block raise: the file read, the POST, or reading
    the text out of a 200 reply. *)
Lemma raised_cases W w :
  raised W w =
  match read_file W (image_path w) with
  | Raise e => Some e
  | Ok image =>
      match requests_post W (groq_request image) with
      | Raise e => Some e
      | Ok resp =>
          if (status_code resp =? 200)%Z then
            match reply_text resp with
            | Raise e => Some e
            | Ok _ => None
            end
          else None
      end
  end.
Proof. unfold raised. run_cases W w; reflexivity. Qed.

Lemma startswith_refl s : startswith s s = true.
Proof. induction s as [|c s IH]; cbn; [reflexivity|]. now rewrite N.eqb_refl. Qed.

Lemma contains_self s : contains s s = true.
Proof. destruct s; cbn; [reflexivity|]. now rewrite N.eqb_refl, startswith_refl. Qed.

Lemma contains_app_r pre s : contains (pre ++ s) s = true.
Proof.
  induction pre as [|c pre IH]; [apply contains_self|].
  cbn [List.app contains]. rewrite IH. apply orb_true_r.
Qed.

(** C1.  Every run emits exactly one signal that is [result] or [error],
    and its last signal is [finished], which it emits nowhere else: this
    holds whatever the file system, the clock and the server do, and
    wherever another thread calls [stop]. *)
Theorem one_outcome_then_finished W w :
  let sigs := signals_of (run_trace W w) in
  List.length (filter is_result sigs) + List.length (filter is_error sigs) = 1 /\
  exists before,
    sigs = before ++ [finished] /\ filter is_finished before = [].
Proof.
  cbv zeta. unfold signals_of.
  rewrite run_trace_cases, app_assoc, flat_map_app.
  split.
  - run_cases W w; reflexivity.
  - eexists. split; [reflexivity|].
    run_cases W w; reflexivity.
Qed.

Lemma reply_text_ok resp s :
  reply_text resp = Ok s <->
  exists parsed content,
    json resp = Ok parsed /\
    message_content parsed = Ok (VStr content) /\
    s = strip content.
Proof.
  unfold reply_text, and_then. split.
  - destruct (json resp) as [parsed|]; [|discriminate].
    destruct (message_content parsed) as [[]|] eqn:Hc; cbn; try discriminate.
    intros [= <-]. eauto.
  - intros (parsed & content & -> & -> & ->). reflexivity.
Qed.

(** C2.  In a run whose POST is answered with status 200, the texts
    emitted as [result] are exactly [strip] of
    [choices[0].message.content] of the parsed body, when that is a string
    (and nothing is emitted as [result] when it is not there). *)
Theorem result_is_stripped_content W w resp :
  received W w = Some resp ->
  status_code resp = 200%Z ->
  forall t,
    In (result t) (signals_of (run_trace W w)) <->
    exists parsed content,
      json resp = Ok parsed /\
      message_content parsed = Ok (VStr content) /\
      t = strip content.
Proof.
  intros Hrecv H200 t. rewrite <- reply_text_ok.
  rewrite received_cases in Hrecv.
  run_cases W w; try discriminate; injection Hrecv as ->.
  - cbn. split.
    + intros H.
      repeat (destruct H as [H|H]; [try discriminate|]); [|contradiction].
      injection H as <-. exact Hreply.
    + intros H. rewrite Hreply in H. injection H as ->. auto 6.
  - split.
    + cbn. intros H.
      repeat (destruct H as [H|H]; [discriminate|]). contradiction.
    + rewrite Hreply. discriminate.
  - rewrite H200 in Hstatus. discriminate.
Qed.

(** C3.  A run whose POST is answered with a status other than 200 emits
    [error] with a message that contains the raw body; a run whose [try]
    block raises [e] emits [error] with a message that contains [str(e)]. *)
Theorem failure_carries_body_or_exception W w :
  let sigs := signals_of (run_trace W w) in
  (forall resp,
     received W w = Some resp -> status_code resp <> 200%Z ->
     In (error (u "API error (Groq): " ++ text resp)) sigs /\
     contains (u "API error (Groq): " ++ text resp) (text resp) = true) /\
  (forall e,
     raised W w = Some e ->
     In (error (u "Processing error: " ++ exn_str e)) sigs /\
     contains (u "Processing error: " ++ exn_str e) (exn_str e) = true).
Proof.
  cbv zeta. split.
  - intros resp0 Hrecv Hne. split; [|apply contains_app_r].
    rewrite received_cases in Hrecv.
    run_cases W w; try discriminate; injection Hrecv as ->.
    + apply Z.eqb_eq in Hstatus. contradiction.
    + apply Z.eqb_eq in Hstatus. contradiction.
    + cbn. auto.
  - intros e0 Hraised. split; [|apply contains_app_r].
    unfold raised in Hraised.
    run_cases W w; rewrite Hout in Hraised; try discriminate;
      injection Hraised as <-; cbn; auto 6.
Qed.

(** C8.  [stop] only sets [_is_running], which [run] never reads: the
    events of a run are the same wherever the other thread's calls of
    [stop] land, before or between its actions, and the same for a worker
    stopped before it starts. *)
Theorem stop_changes_nothing W w stops :
  run_trace (with_stops stops W) w = run_trace (with_stops (fun _ => false) W) w /\
  run_trace W (stop w) = run_trace W w.
Proof.
  split.
  - rewrite !run_trace_cases.
    pose proof (run_try_cases (with_stops stops W) w) as H1.
    pose proof (run_try_cases (with_stops (fun _ => false) W) w) as H2.
    cbv zeta in H1, H2. cbn [with_stops read_file time_time requests_post] in H1, H2.
    rewrite <- H2 in H1. injection H1 as -> ->. reflexivity.
  - rewrite !run_trace_cases.
    pose proof (run_try_cases W (stop w)) as H1.
    pose proof (run_try_cases W w) as H2.
    cbv zeta in H1, H2. cbn [stop image_path model] in H1.
    rewrite <- H2 in H1. injection H1 as -> ->. reflexivity.
Qed.

(** C9.  A run that can read the image sends one POST, to the Groq
    endpoint, whose JSON body is the one the specification words (one user
    message with the fixed prompt and the image as a base64 data URL, the
    fixed model string, [stream] false), with the [Authorization] header
    bearing the embedded key and a timeout of 120 seconds; a run that
    cannot read the image sends none. *)
Theorem post_has_the_specified_shape W w :
  posts_of (run_trace W w) =
  match read_file W (image_path w) with
  | Ok image =>
      [ {| req_url := u "https://api.groq.com/openai/v1/chat/completions";
           req_json := Spec.body prompt (b64encode image)
                                 (u "llama-3.2-11b-vision-preview");
           req_headers := [ (u "Content-Type", u "application/json");
                            Spec.authorization DEMO_KEY ];
           req_timeout := Spec.timeout |} ]
  | Raise _ => []
  end.
Proof.
  rewrite posts_of_run.
  destruct (read_file W (image_path w)) as [image|e]; [|reflexivity].
  unfold groq_request, groq_data, headers, GROQ_API_URL.
  unfold Spec.body, Spec.authorization, Spec.timeout.
  reflexivity.
Qed.

Lemma Forall2_same_refl m1 m2 l : Forall2 (same_but_model m1 m2) l l.
Proof. induction l; constructor; [left; reflexivity | assumption]. Qed.

(** Two traces compared event by event. *)
Ltac pairwise :=
  repeat first
    [ apply Forall2_same_refl
    | constructor; [ (left; reflexivity) || (right; split; reflexivity) | ] ].

(** C10.  Two workers built on the same image path send the same
    requests whatever their model (and URL) arguments; their runs differ
    at most in the "Sending to" log line. *)
Theorem request_ignores_model W path m1 m2 url1 url2 :
  let tr1 := run_trace W (__init__ path m1 url1) in
  let tr2 := run_trace W (__init__ path m2 url2) in
  posts_of tr1 = posts_of tr2 /\
  Forall2 (same_but_model m1 m2) tr1 tr2.
Proof.
  cbv zeta. split.
  - rewrite !posts_of_run. reflexivity.
  - rewrite !run_trace_cases.
    pose proof (run_try_cases W (__init__ path m1 url1)) as H1.
    pose proof (run_try_cases W (__init__ path m2 url2)) as H2.
    cbv zeta in H1, H2. cbn [__init__ image_path model] in H1, H2.
    destruct (read_file W path) as [image|e];
      [ destruct (requests_post W (groq_request image)) as [resp|e];
        [ destruct (status_code resp =? 200)%Z;
          [ destruct (reply_text resp) | ] | ] | ];
      injection H1 as -> ->; injection H2 as -> ->;
      pairwise.
Qed.

Lemma queue_ok_run W w : App.queue_ok (signals_of (run_trace W w)).
Proof.
  unfold App.queue_ok, signals_of.
  rewrite run_trace_cases, app_assoc, flat_map_app.
  eexists. split; [reflexivity|].
  run_cases W w; cbn; repeat constructor; discriminate.
Qed.

#[local] Transparent bind emit time attr open_read post lift u fmt_2f b64encode.

End RunFacts.

(* ================================================================== *)
(** * The shell *)
(* ================================================================== *)

Section Shell.
Import Py Eff Qt App.

(** ** Blocks that leave the button alone *)

Lemma started_app l1 l2 : started (l1 ++ l2) = started l1 ++ started l2.
Proof. apply flat_map_app. Qed.

Lemma quiet_ret A (a : A) : quiet (ret a).
Proof. intros g t. split; reflexivity. Qed.

Lemma quiet_lift A (o : outcome A) : quiet (lift o).
Proof. intros g t. split; reflexivity. Qed.

Lemma quiet_window : quiet window.
Proof. intros g t. split; reflexivity. Qed.

Lemma quiet_around A (f : Gui -> A) : quiet (around f).
Proof. intros g t. split; reflexivity. Qed.

Lemma quiet_time_strftime : quiet time_strftime.
Proof. intros g t. split; reflexivity. Qed.

Lemma quiet_assign f :
  (forall a, process_btn (f a) = process_btn a) -> quiet (assign f).
Proof. intros Hf g t. split; [apply Hf | reflexivity]. Qed.

Lemma quiet_perform e : started [e] = [] -> quiet (perform e).
Proof.
  intros He g t. split; [reflexivity|].
  cbn [perform fst done]. rewrite started_app, He. apply app_nil_r.
Qed.

Lemma quiet_bind A B (m : UI A) (k : A -> UI B) :
  quiet m -> (forall a, quiet (k a)) -> quiet (bind m k).
Proof.
  intros Hm Hk g t. unfold bind.
  destruct (Hm g t) as [H1 H2].
  destruct (m g t) as [t' [a|e]]; cbn [fst] in *.
  - destruct (Hk a g t') as [H3 H4]. split; congruence.
  - split; assumption.
Qed.

Lemma quiet_try_except A (body : UI A) (handler : exn -> UI A) :
  quiet body -> (forall e, quiet (handler e)) -> quiet (try_except body handler).
Proof.
  intros Hm Hk g t. unfold try_except.
  destruct (Hm g t) as [H1 H2].
  destruct (body g t) as [t' [a|e]]; cbn [fst] in *.
  - split; assumption.
  - destruct (Hk e g t') as [H3 H4]. split; congruence.
Qed.

Create HintDb quiet.

#[local] Hint Resolve quiet_ret quiet_lift quiet_window quiet_around
  quiet_time_strftime quiet_perform : quiet.

Ltac quiet_step :=
  first
    [ apply quiet_bind; [|intros ?]
    | apply quiet_try_except; [|intros ?]
    | apply quiet_assign; intros a; destruct a; reflexivity
    | apply quiet_perform; reflexivity
    | solve [auto with quiet]
    | match goal with
      | |- quiet (if ?b then _ else _) => destruct b
      | |- quiet (match ?x with _ => _ end) => destruct x
      end ].

Ltac quietly := repeat quiet_step.

Lemma quiet_update_status message error : quiet (update_status message error).
Proof. unfold update_status. quietly. Qed.

Lemma quiet_log message error : quiet (log message error).
Proof. unfold log. quietly. Qed.

Lemma quiet_log_message message is_error : quiet (log_message message is_error).
Proof. unfold log_message. quietly. Qed.

#[local] Hint Resolve quiet_update_status quiet_log quiet_log_message : quiet.

Lemma quiet_load_pixmap pixmap : quiet (load_pixmap pixmap).
Proof. unfold load_pixmap. quietly. Qed.

#[local] Hint Resolve quiet_load_pixmap : quiet.

Lemma quiet_load_image file_path : quiet (load_image file_path).
Proof. unfold load_image. quietly. Qed.

#[local] Hint Resolve quiet_load_image : quiet.

Lemma quiet_select_image : quiet select_image.
Proof. unfold select_image. quietly. Qed.

Lemma quiet_load_first_image file_paths : quiet (load_first_image file_paths).
Proof.
  induction file_paths as [|file_path rest IH]; cbn [load_first_image].
  - auto with quiet.
  - apply quiet_bind; [auto with quiet|]. intros lowered.
    destruct (endswith_any lowered image_suffixes); auto with quiet.
Qed.

#[local] Hint Resolve quiet_select_image quiet_load_first_image : quiet.

Lemma quiet_dropEvent mimeData : quiet (dropEvent mimeData).
Proof. unfold dropEvent. auto with quiet. Qed.

Lemma quiet_keyPressEvent event : quiet (keyPressEvent event).
Proof. unfold keyPressEvent. quietly. Qed.

Lemma quiet_get_request url timeout : quiet (get_request url timeout).
Proof. unfold get_request. quietly. Qed.

#[local] Hint Resolve quiet_get_request : quiet.

Lemma quiet_check_ollama_connection : quiet check_ollama_connection.
Proof. unfold check_ollama_connection. quietly. Qed.

Lemma quiet_handle_result text : quiet (handle_result text).
Proof. unfold handle_result. quietly. Qed.

Lemma quiet_handle_error error_msg : quiet (handle_error error_msg).
Proof. unfold handle_error. quietly. Qed.

Lemma quiet_closeEvent : quiet closeEvent.
Proof. unfold closeEvent. quietly. Qed.

(** Every user event but a click on the button is quiet. *)
Lemma quiet_on_user ev : ev <> process_btn_click -> quiet (on_user ev).
Proof.
  destruct ev; cbn [on_user]; intros Hev; try contradiction.
  - apply quiet_check_ollama_connection.
  - apply quiet_select_image.
  - apply quiet_dropEvent.
  - apply quiet_keyPressEvent.
  - apply quiet_closeEvent.
Qed.

(** Every signal but [finished] reaches a quiet slot. *)
Lemma quiet_on_signal s : s <> Worker.finished -> quiet (on_signal s).
Proof.
  destruct s; cbn [on_signal]; intros Hs; try contradiction.
  - apply quiet_handle_error.
  - apply quiet_handle_result.
  - apply quiet_update_status.
  - apply quiet_log_message.
Qed.

Lemma run_slot_quiet g (m : UI unit) a :
  quiet m ->
  process_btn (fst (run_slot g m a)) = process_btn a /\
  started (snd (run_slot g m a)) = [].
Proof. intros Hm. unfold run_slot. cbn [fst snd]. apply (Hm g). Qed.

Lemma user_event_eq_click ev : ev = process_btn_click \/ ev <> process_btn_click.
Proof. destruct ev; (left; reflexivity) || (right; discriminate). Qed.

(** ** [run_ocr] *)

Lemma run_ocr_refuses g a :
  image_path a = [] \/ currentText (model_dropdown a) = [] ->
  exists message,
    run_slot g run_ocr a = (a, [QMessageBox_warning (u "Warning") message]).
Proof.
  intros H. unfold run_slot, run_ocr, bind, window. cbn [fst snd app done].
  destruct (image_path a) as [|c p] eqn:Hp.
  - eexists. reflexivity.
  - destruct H as [H|H]; [discriminate|]. rewrite H. eexists. reflexivity.
Qed.

Lemma run_ocr_accepts g a :
  image_path a <> [] -> currentText (model_dropdown a) <> [] ->
  let a' := fst (run_slot g run_ocr a) in
  isEnabled (process_btn a') = false /\
  toPlainText (result_text a') = [] /\
  snd (run_slot g run_ocr a) =
    [worker_thread_start
       (Worker.__init__ (image_path a) (currentText (model_dropdown a))
                        (ollama_url a))].
Proof.
  intros Hp Hm. unfold run_slot, run_ocr, bind, window. cbn [fst snd app done].
  destruct (image_path a) as [|c p] eqn:Hpath; [contradiction|].
  destruct (currentText (model_dropdown a)) as [|c' m] eqn:Hmodel; [contradiction|].
  cbn. rewrite Hpath, Hmodel. auto.
Qed.

(** The placeholder item the box holds until the models are listed is a
    current text like any other: [run_ocr] starts a job with it. *)
Lemma run_ocr_with_placeholder g a :
  image_path a <> [] ->
  model_dropdown a = model_dropdown __init__ ->
  snd (run_slot g run_ocr a) =
    [worker_thread_start
       (Worker.__init__ (image_path a) (u "Loading models...") (ollama_url a))].
Proof.
  intros Hp Hm.
  assert (Ht : currentText (model_dropdown a) = u "Loading models...")
    by (rewrite Hm; reflexivity).
  assert (Hne : currentText (model_dropdown a) <> []).
  { rewrite Ht. vm_compute. discriminate. }
  destruct (@run_ocr_accepts g a Hp Hne) as (_ & _ & Hs).
  rewrite Hs, Ht. reflexivity.
Qed.

Lemma cleanup_thread_enables g a :
  isEnabled (process_btn (fst (run_slot g cleanup_thread a))) = true /\
  started (snd (run_slot g cleanup_thread a)) = [].
Proof.
  unfold run_slot, cleanup_thread, bind, window. cbn [fst snd app done].
  destruct (worker_thread a); cbn; auto.
Qed.

(** ** One job at a time *)

Lemma take_signal_single i q :
  queue_ok q ->
  take_signal i [q] = None /\ i <> 0 \/
  i = 0 /\
  (q = [Worker.finished] /\ take_signal i [q] = Some (Worker.finished, []) \/
   exists s q', q = s :: q' /\ s <> Worker.finished /\ queue_ok q' /\
                take_signal i [q] = Some (s, [q'])).
Proof.
  intros (before & -> & Hb).
  destruct i as [|i]; [right; split; [reflexivity|] | left; split; [destruct i; reflexivity | discriminate]].
  destruct before as [|s before]; [left; split; reflexivity|].
  right. exists s, (before ++ [Worker.finished]).
  inversion Hb as [|? ? Hs Hb']; subst.
  repeat split; try assumption.
  - exists before. split; [reflexivity | assumption].
  - cbn. destruct before; reflexivity.
Qed.

Lemma step_user_quiet g W ev sys :
  ev <> process_btn_click ->
  in_flight (step g W (user ev) sys) = in_flight sys /\
  posts (step g W (user ev) sys) = posts sys /\
  process_btn (shell (step g W (user ev) sys)) = process_btn (shell sys).
Proof.
  intros Hev. unfold step. cbn [slot_of].
  destruct (run_slot_quiet g (shell sys) (quiet_on_user Hev)) as [Hb Hs].
  destruct (run_slot g (on_user ev) (shell sys)) as [a effs]. cbn [fst snd] in *.
  rewrite Hs. cbn. rewrite !app_nil_r. auto.
Qed.

Lemma run_slot_click g a :
  run_slot g (on_user process_btn_click) a =
  if isEnabled (process_btn a) then run_slot g run_ocr a else (a, []).
Proof.
  unfold run_slot. cbn [on_user]. unfold bind at 1 2, window. cbn [fst snd app].
  destruct (isEnabled (process_btn a)); reflexivity.
Qed.

Lemma step_click_disabled g W sys :
  isEnabled (process_btn (shell sys)) = false ->
  step g W (user process_btn_click) sys = sys.
Proof.
  intros Hd. unfold step. cbn [slot_of]. rewrite run_slot_click, Hd. cbn.
  rewrite !app_nil_r. destruct sys; reflexivity.
Qed.

Lemma step_click_enabled g W sys :
  isEnabled (process_btn (shell sys)) = true ->
  step g W (user process_btn_click) sys =
  let '(a, effs) := run_slot g run_ocr (shell sys) in
  let runs := map (Worker.run_trace W) (started effs) in
  {| shell := a;
     in_flight := in_flight sys ++ map Worker.signals_of runs;
     posts := posts sys ++ flat_map Worker.posts_of runs |}.
Proof.
  intros He. unfold step. cbn [slot_of]. rewrite run_slot_click, He.
  reflexivity.
Qed.

Lemma single_flight_boot : single_flight boot.
Proof. left. split; reflexivity. Qed.

Lemma single_flight_step g W l sys :
  single_flight sys -> single_flight (step g W l sys).
Proof.
  intros Hinv. destruct l as [ev|i].
  - destruct (user_event_eq_click ev) as [->|Hev].
    + destruct Hinv as [[Hq He]|(q & Hq & Hok & Hd)].
      * rewrite (step_click_enabled g W sys He).
        destruct (list_eq_dec N.eq_dec (image_path (shell sys)) []) as [Hp|Hp];
          [|destruct (list_eq_dec N.eq_dec (currentText (model_dropdown (shell sys))) [])
              as [Hm|Hm]].
        -- destruct (run_ocr_refuses g (shell sys) (or_introl Hp)) as [msg ->].
           left. cbn. rewrite Hq. auto.
        -- destruct (run_ocr_refuses g (shell sys) (or_intror Hm)) as [msg ->].
           left. cbn. rewrite Hq. auto.
        -- destruct (@run_ocr_accepts g (shell sys) Hp Hm) as (Hb & _ & Hs).
           destruct (run_slot g run_ocr (shell sys)) as [a effs].
           cbn [fst snd] in *. subst effs. right.
           eexists. cbn. rewrite Hq. split; [reflexivity|].
           split; [apply queue_ok_run | exact Hb].
      * rewrite (step_click_disabled g W sys Hd). right. eauto.
    + destruct (step_user_quiet g W sys Hev) as (H1 & _ & H3).
      unfold single_flight. rewrite H1, H3. exact Hinv.
  - destruct Hinv as [[Hq He]|(q & Hq & Hok & Hd)].
    + left. unfold step. cbn [slot_of]. rewrite Hq.
      destruct i; cbn; rewrite Hq; auto.
    + unfold step. cbn [slot_of]. rewrite Hq.
      destruct (take_signal_single i Hok)
        as [[-> _]|[-> [[-> ->]|(s & q' & -> & Hs & Hok' & ->)]]].
      * right. eauto.
      * cbn [on_signal].
        destruct (cleanup_thread_enables g (shell sys)) as [Hb Hs].
        destruct (run_slot g cleanup_thread (shell sys)) as [a effs].
        cbn [fst snd] in *. rewrite Hs. left. cbn. auto.
      * destruct (run_slot_quiet g (shell sys) (quiet_on_signal Hs)) as [Hb Hst].
        destruct (run_slot g (on_signal s) (shell sys)) as [a effs].
        cbn [fst snd] in *. rewrite Hst. right. exists q'. cbn.
        rewrite Hb. auto.
Qed.

Lemma single_flight_steps ls sys :
  single_flight sys -> single_flight (steps ls sys).
Proof.
  revert sys. induction ls as [|[[g W] l] ls IH]; intros sys Hinv; [exact Hinv|].
  apply IH, single_flight_step, Hinv.
Qed.

Lemma single_flight_reachable sys : reachable sys -> single_flight sys.
Proof. intros [ls <-]. apply single_flight_steps, single_flight_boot. Qed.

(** C7.  In every state the window can reach: at most one job is in
    flight; a submit that passes the guard disables the button and puts
    one job in flight, with at most one more POST; a click while a job is
    in flight changes nothing (no thread, no POST); the button goes from
    disabled to enabled only in a step that handles [finished]; and
    handling [finished] enables it and ends the job. *)
Theorem at_most_one_job_in_flight sys :
  reachable sys ->
  (List.length (in_flight sys) <= 1)%nat /\
  (forall g W,
     in_flight sys = [] ->
     image_path (shell sys) <> [] ->
     currentText (model_dropdown (shell sys)) <> [] ->
     let sys' := step g W (user process_btn_click) sys in
     isEnabled (process_btn (shell sys')) = false /\
     List.length (in_flight sys') = 1 /\
     (List.length (posts sys') <= S (List.length (posts sys)))%nat) /\
  (forall g W,
     in_flight sys <> [] ->
     step g W (user process_btn_click) sys = sys) /\
  (forall g W l,
     isEnabled (process_btn (shell sys)) = false ->
     isEnabled (process_btn (shell (step g W l sys))) = true ->
     delivered l sys = Some Worker.finished) /\
  (forall g W l,
     delivered l sys = Some Worker.finished ->
     isEnabled (process_btn (shell (step g W l sys))) = true /\
     in_flight (step g W l sys) = []).
Proof.
  intros Hreach. pose proof (single_flight_reachable Hreach) as Hinv.
  split; [|split; [|split; [|split]]].
  - destruct Hinv as [[-> _]|(q & -> & _)]; cbn; lia.
  - intros g W Hq Hp Hm. cbv zeta.
    destruct Hinv as [[_ He]|(q & Hq' & _)]; [|congruence].
    rewrite (step_click_enabled g W sys He).
    destruct (@run_ocr_accepts g (shell sys) Hp Hm) as (Hb & _ & Hs).
    destruct (run_slot g run_ocr (shell sys)) as [a effs].
    cbn [fst snd] in *. subst effs. cbn. rewrite Hq, Hb.
    split; [reflexivity|]. split; [reflexivity|].
    rewrite app_nil_r, length_app, posts_of_run.
    destruct (Worker.read_file W _); cbn; lia.
  - intros g W Hq.
    destruct Hinv as [[Hq' _]|(q & _ & _ & Hd)]; [contradiction|].
    apply step_click_disabled, Hd.
  - intros g W l Hd He.
    destruct Hinv as [[_ He']|(q & Hq & Hok & _)]; [congruence|].
    destruct l as [ev|i].
    + exfalso. destruct (user_event_eq_click ev) as [->|Hev].
      * rewrite (step_click_disabled g W sys Hd) in He. congruence.
      * destruct (step_user_quiet g W sys Hev) as (_ & _ & H3). congruence.
    + unfold delivered. unfold step in He. cbn [slot_of] in He.
      rewrite Hq in *.
      destruct (take_signal_single i Hok)
        as [[Ht _]|[-> [[-> Ht]|(s & q' & -> & Hs & Hok' & Ht)]]];
        rewrite Ht in *.
      * congruence.
      * reflexivity.
      * exfalso.
        destruct (run_slot_quiet g (shell sys) (quiet_on_signal Hs)) as [Hb Hst].
        destruct (run_slot g (on_signal s) (shell sys)) as [a effs].
        cbn [fst snd shell] in *. congruence.
  - intros g W l Hdel. destruct l as [ev|i]; [discriminate|].
    unfold delivered in Hdel. unfold step. cbn [slot_of].
    destruct Hinv as [[Hq _]|(q & Hq & Hok & _)]; rewrite Hq in *.
    + destruct i; discriminate.
    + destruct (take_signal_single i Hok)
        as [[Ht _]|[-> [[-> Ht]|(s & q' & -> & Hs & Hok' & Ht)]]];
        rewrite Ht in *; try discriminate.
      * cbn [on_signal].
        destruct (cleanup_thread_enables g (shell sys)) as [Hb Hs].
        destruct (run_slot g cleanup_thread (shell sys)) as [a effs].
        cbn [fst snd] in *. rewrite Hs. cbn. auto.
      * congruence.
Qed.

(** ** The guard of [run_ocr] *)

(** C4.  With no image selected, or no current text in the model box,
    [run_ocr] shows a warning and does nothing else: the window is
    unchanged, no thread is started, and the step of the whole system
    leaves the jobs in flight and the POSTs sent as they were. *)
Theorem run_ocr_guard g a :
  image_path a = [] \/ currentText (model_dropdown a) = [] ->
  (exists message,
     run_slot g run_ocr a = (a, [QMessageBox_warning (u "Warning") message])) /\
  (forall W queues sent,
     step g W (user process_btn_click)
          {| shell := a; in_flight := queues; posts := sent |} =
     {| shell := a; in_flight := queues; posts := sent |}).
Proof.
  intros H. destruct (run_ocr_refuses g a H) as [message Hr].
  split; [exists message; exact Hr|].
  intros W queues sent. unfold step. cbn [slot_of shell in_flight posts].
  rewrite run_slot_click, Hr.
  destruct (isEnabled (process_btn a)); cbn; rewrite !app_nil_r; reflexivity.
Qed.

(** ** The ways to supply an image *)

Lemma load_first_image_head g t file_path rest :
  endswith_any (lower g file_path) image_suffixes = true ->
  load_first_image (file_path :: rest) g t = load_image file_path g t.
Proof.
  intros H. cbn [load_first_image]. unfold bind at 1. unfold around at 1.
  rewrite H. reflexivity.
Qed.

(** The file dialog, a dropped file URL and a pasted file URL all end in
    [load_image]. *)
Lemma file_paths_reach_load_image g a file_path :
  file_path <> [] ->
  getOpenFileName g = file_path ->
  clipboard g = {| imageData := None; urls := [file_path] |} ->
  endswith_any (lower g file_path) image_suffixes = true ->
  run_slot g select_image a = run_slot g (load_image file_path) a /\
  run_slot g (dropEvent {| imageData := None; urls := [file_path] |}) a =
    run_slot g (load_image file_path) a /\
  run_slot g (keyPressEvent ctrl_v) a = run_slot g (load_image file_path) a.
Proof.
  intros Hne Hpick Hclip Hsuffix. unfold run_slot.
  assert (H1 : forall t, select_image g t = load_image file_path g t).
  { intros t. unfold select_image. unfold bind at 1. unfold around at 1.
    rewrite Hpick. destruct file_path; [contradiction|]. reflexivity. }
  assert (H2 : forall t, dropEvent {| imageData := None; urls := [file_path] |} g t
                         = load_image file_path g t).
  { intros t. unfold dropEvent. cbn [urls].
    apply load_first_image_head, Hsuffix. }
  assert (H3 : forall t, keyPressEvent ctrl_v g t = load_image file_path g t).
  { intros t. unfold keyPressEvent. cbn [ctrl_v key modifiers].
    cbn [Z.eqb Key_V ControlModifier Pos.eqb andb].
    unfold bind at 1. unfold around at 1. rewrite Hclip.
    cbn [hasImage hasUrls imageData urls].
    apply load_first_image_head, Hsuffix. }
  rewrite H1, H2, H3. auto.
Qed.

(** C6.  Pasting a bitmap shows it in the image label but does not go
    through [load_image]: [image_path] and the file name label stay as
    they were. *)
Theorem bitmap_paste_leaves_image_path g a id :
  imageData (clipboard g) = Some (Image id) ->
  let a' := fst (run_slot g (keyPressEvent ctrl_v) a) in
  pixmap (image_label a') =
    Some (Scaled (PixmapOfImage id) (image_label_width g - 20)
                 (image_label_height g - 20)) /\
  image_path a' = image_path a /\
  image_info a' = image_info a.
Proof.
  intros Hclip.
  assert (H : forall t, keyPressEvent ctrl_v g t
                        = load_pixmap (PixmapOfImage id) g t).
  { intros t. unfold keyPressEvent. cbn [ctrl_v key modifiers].
    cbn [Z.eqb Key_V ControlModifier Pos.eqb andb].
    unfold bind at 1. unfold around at 1. unfold hasImage, image.
    rewrite Hclip. reflexivity. }
  cbv zeta. unfold run_slot. cbn [fst]. rewrite H.
  cbn. unfold setText. cbn. auto.
Qed.

(** ** The model list *)

Lemma str_eqb_eq a b : str_eqb a b = true <-> a = b.
Proof. unfold str_eqb. destruct (list_eq_dec N.eq_dec a b); split; congruence. Qed.

Lemma join_values_from_strs i sep names :
  join_values_from i sep (map VStr names) = Ok (join sep names).
Proof.
  revert i. induction names as [|n ns IH]; intros i; [reflexivity|].
  specialize (IH (i + 1)%N). destruct ns as [|n' ns]; [reflexivity|].
  cbn [map join_values_from join] in *. rewrite IH. reflexivity.
Qed.

Lemma texts_of_strs names : texts_of (map VStr names) = names.
Proof. induction names as [|n ns IH]; [reflexivity|]. cbn. now f_equal. Qed.

Lemma find_from_notin k xs t : ~ In t xs -> find_from k xs t = (-1)%Z.
Proof.
  revert k. induction xs as [|x xs IH]; intros k Hn; [reflexivity|].
  cbn [find_from]. destruct (str_eqb x t) eqn:E.
  - apply str_eqb_eq in E. subst. exfalso. apply Hn. left. reflexivity.
  - apply IH. intros H. apply Hn. right. exact H.
Qed.

Lemma find_from_In k xs t :
  In t xs ->
  (k <= find_from k xs t < k + Z.of_nat (List.length xs))%Z /\
  nth (Z.to_nat (find_from k xs t - k)) xs [] = t.
Proof.
  revert k. induction xs as [|x xs IH]; intros k Hin; [contradiction|].
  cbn [find_from List.length]. destruct (str_eqb x t) eqn:E.
  - apply str_eqb_eq in E. subst. rewrite Z.sub_diag. split; [lia | reflexivity].
  - destruct Hin as [->|Hin].
    + assert (str_eqb t t = true) by now apply str_eqb_eq. congruence.
    + destruct (IH (k + 1)%Z Hin) as [Hr Hn]. split; [lia|].
      replace (find_from (k + 1) xs t - k)%Z
        with (Z.succ (find_from (k + 1) xs t - (k + 1)))%Z by lia.
      rewrite Z2Nat.inj_succ by lia. exact Hn.
Qed.

Lemma existsb_contains_In p names :
  In p names -> existsb (fun m => contains m p) names = true.
Proof.
  intros H. apply existsb_exists. exists p. split; [exact H | apply contains_self].
Qed.

Lemma addItems_clear names cb :
  names <> [] -> addItems names (clear cb) = {| items := names; currentIndex := 0 |}.
Proof. destruct names; [contradiction | reflexivity]. Qed.

#[local] Opaque u join str_of_N contains.

(** C5.  After a 200 reply listing [names], the catalog and the model
    box hold [names]; the preferred model is the current text when it is
    an entry itself; when it is only part of an entry the box is left with
    no current item; when no entry contains it the first entry stays
    current. *)
Theorem preferred_model_needs_exact_entry g a names response :
  requests_get g (ollama_url a ++ u "/api/tags") 5 = Ok response ->
  Worker.status_code response = 200%Z ->
  model_names response = Ok (map VStr names) ->
  let a' := fst (run_slot g check_ollama_connection a) in
  let listed := existsb (fun m => contains m (preferred_model a)) names in
  available_models a' = map VStr names /\
  items (model_dropdown a') = names /\
  (In (preferred_model a) names ->
   currentText (model_dropdown a') = preferred_model a) /\
  (~ In (preferred_model a) names -> listed = true ->
   currentIndex (model_dropdown a') = (-1)%Z /\
   currentText (model_dropdown a') = []) /\
  (listed = false -> names <> [] ->
   currentIndex (model_dropdown a') = 0%Z).
Proof.
  intros Hget H200 Hnames. cbv zeta. unfold run_slot. cbn [fst].
  cbv beta iota zeta delta
    [check_ollama_connection bind try_except perform assign window around
     time_strftime lift ret update_status log get_request fst snd app done
     stamps].
  cbn [ollama_url on_status_bar].
  rewrite Hget. cbv beta iota zeta. rewrite H200. cbn [Z.eqb Pos.eqb].
  rewrite Hnames. cbv beta iota zeta.
  unfold join_values. rewrite join_values_from_strs. cbv beta iota zeta.
  rewrite !texts_of_strs.
  destruct names as [|n ns].
  - cbn. repeat split; try reflexivity; try contradiction; discriminate.
  - cbn [map]. cbv beta iota zeta.
    assert (Hne : n :: ns <> []) by discriminate.
    remember (n :: ns) as names eqn:Enames. clear Enames.
    cbn [model_dropdown preferred_model on_status_bar on_available_models
         on_model_dropdown].
    destruct (existsb (fun m => contains m (preferred_model a)) names) eqn:Hany;
      cbn [model_dropdown available_models preferred_model on_status_bar
           on_available_models on_model_dropdown];
      rewrite !addItems_clear by exact Hne;
      unfold setCurrentIndex, currentText, findText, count;
      cbn [items currentIndex].
    + split; [reflexivity|]. split; [reflexivity|].
      split; [|split; [|discriminate]].
      * intros Hin.
        destruct (@find_from_In 0%Z names (preferred_model a) Hin) as [Hr Hn].
        rewrite Z.sub_0_r in Hn.
        replace (0 <=? find_from 0 names (preferred_model a))%Z with true
          by (symmetry; apply Z.leb_le; lia).
        replace (find_from 0 names (preferred_model a) <?
                 Z.of_nat (List.length names))%Z with true
          by (symmetry; apply Z.ltb_lt; lia).
        cbn [andb].
        replace (0 <=? find_from 0 names (preferred_model a))%Z with true
          by (symmetry; apply Z.leb_le; lia).
        exact Hn.
      * intros Hnot _. rewrite (@find_from_notin 0%Z names (preferred_model a) Hnot). split; reflexivity.
    + split; [reflexivity|]. split; [reflexivity|].
      split; [|split; [discriminate | reflexivity]].
      intros Hin. apply existsb_contains_In in Hin. congruence.
Qed.

#[local] Transparent u join str_of_N contains.

End Shell.

(* ================================================================== *)
(** * The theorems at sample surroundings *)
(* ================================================================== *)

Section Samples.
Import Py Qt Examples.

(** C2 at the reply ["  Hello World  "]: the result is ["Hello World"]. *)
Lemma result_is_stripped_content_hello :
  Worker.received (world (Ok hello)) cat_worker = Some hello /\
  Worker.status_code hello = 200%Z /\
  In (Worker.result (u "Hello World"))
     (Worker.signals_of (Worker.run_trace (world (Ok hello)) cat_worker)).
Proof.
  assert (H : Worker.received (world (Ok hello)) cat_worker = Some hello)
    by (vm_compute; reflexivity).
  split; [exact H|]. split; [reflexivity|].
  apply (proj2 (@result_is_stripped_content (world (Ok hello)) cat_worker hello H
                  eq_refl (u "Hello World"))).
  eexists. exists (u "  Hello World  ").
  split; [reflexivity|]. split; reflexivity.
Defined.

(** C3 at the reply 429 "rate limited", and at a file that is not there. *)
Lemma failure_carries_body_or_exception_samples :
  In (Worker.error (u "API error (Groq): rate limited"))
     (Worker.signals_of (Worker.run_trace (world (Ok rate_limited)) cat_worker)) /\
  In (Worker.error
        (u "Processing error: [Errno 2] No such file or directory: '/home/user/missing.png'"))
     (Worker.signals_of (Worker.run_trace (world (Ok hello)) lost_worker)).
Proof.
  split.
  - apply (proj1 (failure_carries_body_or_exception (world (Ok rate_limited)) cat_worker)
             rate_limited).
    + vm_compute. reflexivity.
    + discriminate.
  - apply (proj2 (failure_carries_body_or_exception (world (Ok hello)) lost_worker)
             (Exn "FileNotFoundError"
                  (u "[Errno 2] No such file or directory: '/home/user/missing.png'"))).
    vm_compute. reflexivity.
Defined.

(** C4 at the window as it opens: no image is selected. *)
Lemma run_ocr_guard_at_boot :
  App.image_path App.__init__ = [] /\
  exists message,
    App.run_slot (gui [] [] no_mime) App.run_ocr App.__init__ =
    (App.__init__, [App.QMessageBox_warning (u "Warning") message]).
Proof.
  split; [reflexivity|].
  exact (proj1 (@run_ocr_guard (gui [] [] no_mime) App.__init__
                  (or_introl eq_refl))).
Defined.

(** C5 at a catalog whose only match is ["gemma:2b-instruct"]: no model
    is left selected. *)
Lemma preferred_model_needs_exact_entry_at_substring_only :
  let a' := fst (App.run_slot (gui substring_only [] no_mime)
                              App.check_ollama_connection App.__init__) in
  existsb (fun m => contains m (App.preferred_model App.__init__)) substring_only = true /\
  currentIndex (App.model_dropdown a') = (-1)%Z /\
  currentText (App.model_dropdown a') = [].
Proof.
  cbv zeta. split; [reflexivity|].
  refine (proj1 (proj2 (proj2 (proj2
    (@preferred_model_needs_exact_entry (gui substring_only [] no_mime)
       App.__init__ substring_only (tags substring_only)
       eq_refl eq_refl eq_refl)))) _ eq_refl).
  intros [H|[H|[]]]; discriminate H.
Defined.

(** C6 at the window as it opens: after the paste the bitmap is shown and
    no image path is set. *)
Lemma bitmap_paste_leaves_image_path_at_boot :
  let a' := fst (App.run_slot (gui [] [] bitmap) (App.keyPressEvent App.ctrl_v)
                              App.__init__) in
  pixmap (App.image_label a') = Some (Scaled (PixmapOfImage 0) 560 230) /\
  App.image_path a' = [] /\
  text (App.image_info a') = u "No image loaded".
Proof.
  destruct (@bitmap_paste_leaves_image_path (gui [] [] bitmap) App.__init__ 0 eq_refl)
    as (H1 & H2 & H3).
  cbv zeta. rewrite H1, H2, H3. repeat split; reflexivity.
Defined.

(** What the bitmap paste leads to: with [cat_png] picked before, the
    label shows the pasted bitmap and a click on "Run OCR" starts a job on
    [cat_png]. *)
Example bitmap_paste_then_run_ocr :
  let g := gui [] cat_png bitmap in
  let pasted := fst (App.run_slot g (App.keyPressEvent App.ctrl_v) (App.shell ready)) in
  pixmap (App.image_label pasted) = Some (Scaled (PixmapOfImage 0) 560 230) /\
  App.started (snd (App.run_slot g App.run_ocr pasted)) =
    [Worker.__init__ cat_png (u "Loading models...") (u "http://localhost:11434")].
Proof. split; vm_compute; reflexivity. Qed.

(** C7 at three states of the window: ready to submit, with a job in
    flight, and about to handle [finished]. *)
Lemma at_most_one_job_in_flight_samples :
  (App.reachable ready /\
   isEnabled (App.process_btn
                (App.shell (App.step (gui [] cat_png no_mime) (world (Ok hello))
                                     (App.user App.process_btn_click) ready))) = false) /\
  (App.reachable busy /\
   (List.length (App.in_flight busy) <= 1)%nat /\
   App.step (gui [] cat_png no_mime) (world (Ok hello))
            (App.user App.process_btn_click) busy = busy) /\
  (App.reachable finishing /\
   isEnabled (App.process_btn
                (App.shell (App.step (gui [] cat_png no_mime) (world (Ok hello))
                                     (App.deliver 0) finishing))) = true).
Proof.
  assert (Hready : App.reachable ready) by (eexists; reflexivity).
  assert (Hbusy : App.reachable busy) by (eexists; reflexivity).
  assert (Hfinishing : App.reachable finishing).
  { exists ([ (gui [] cat_png no_mime, world (Ok hello), App.user App.image_label_mousePress);
              (gui [] cat_png no_mime, world (Ok hello), App.user App.process_btn_click) ]
            ++ repeat (gui [] cat_png no_mime, world (Ok hello), App.deliver 0) 7).
    unfold finishing, busy, App.steps. rewrite fold_left_app. reflexivity. }
  split; [|split].
  - split; [exact Hready|].
    destruct (at_most_one_job_in_flight Hready) as (_ & H2 & _).
    apply (H2 (gui [] cat_png no_mime) (world (Ok hello))).
    + reflexivity.
    + vm_compute. discriminate.
    + vm_compute. discriminate.
  - split; [exact Hbusy|].
    destruct (at_most_one_job_in_flight Hbusy) as (H1 & _ & H3 & _).
    split; [exact H1|]. apply H3. vm_compute. discriminate.
  - split; [exact Hfinishing|].
    destruct (at_most_one_job_in_flight Hfinishing) as (_ & _ & _ & _ & H5).
    apply H5. vm_compute. reflexivity.
Defined.

End Samples.

(* ================================================================== *)
(** * Python strings and bytes *)
(* ================================================================== *)

Section PythonFacts.
Import Py More.

(** ** [strip] *)

Lemma lstrip_split s :
  exists pre, s = pre ++ lstrip s /\ blank pre.
Proof.
  induction s as [|c s (pre & Hs & Hpre)]; [exists []; split; [reflexivity | constructor]|].
  cbn [lstrip]. destruct (isspace c) eqn:Hc.
  - exists (c :: pre). split; [cbn; now f_equal | now constructor].
  - exists []. split; [reflexivity | constructor].
Qed.

Lemma lstrip_head s c rest : lstrip s = c :: rest -> isspace c = false.
Proof.
  induction s as [|d s IH]; [discriminate|].
  cbn [lstrip]. destruct (isspace d) eqn:Hd; [exact IH|].
  intros [= <- _]. exact Hd.
Qed.

Lemma blank_rev s : blank s -> blank (rev s).
Proof. apply Forall_rev. Qed.

Lemma rstrip_split s :
  exists post, s = rstrip s ++ post /\ blank post.
Proof.
  unfold rstrip. destruct (lstrip_split (rev s)) as (pre & Hs & Hpre).
  exists (rev pre). split; [|now apply blank_rev].
  rewrite <- rev_app_distr, <- Hs. symmetry. apply rev_involutive.
Qed.

Lemma rstrip_last s init c : rstrip s = init ++ [c] -> isspace c = false.
Proof.
  unfold rstrip. intros H. apply (f_equal (@rev _)) in H.
  rewrite rev_involutive, rev_app_distr in H. cbn in H.
  eapply lstrip_head; eassumption.
Qed.

(** What [rstrip] leaves starts like the string it was given. *)
Lemma rstrip_head s c rest :
  rstrip s = c :: rest -> exists rest', s = c :: rest'.
Proof.
  intros H. destruct (rstrip_split s) as (post & Hs & _).
  rewrite H in Hs. cbn in Hs. eauto.
Qed.

Lemma strip_split s :
  exists pre post,
    s = pre ++ strip s ++ post /\ blank pre /\ blank post /\
    (forall c rest, strip s = c :: rest -> isspace c = false) /\
    (forall init c, strip s = init ++ [c] -> isspace c = false).
Proof.
  unfold strip.
  destruct (lstrip_split s) as (pre & Hs & Hpre).
  destruct (rstrip_split (lstrip s)) as (post & Hl & Hpost).
  exists pre, post. repeat split; try assumption.
  - rewrite <- Hl. exact Hs.
  - intros c rest H. destruct (rstrip_head _ H) as [rest' H'].
    eapply lstrip_head; eassumption.
  - intros init c H. eapply rstrip_last; eassumption.
Qed.

Lemma lstrip_blank s : blank s -> lstrip s = [].
Proof.
  induction 1 as [|c s Hc _ IH]; [reflexivity|]. cbn [lstrip]. now rewrite Hc.
Qed.

Lemma strip_blank s : blank s -> strip s = [].
Proof. intros H. unfold strip. rewrite (@lstrip_blank s H). reflexivity. Qed.

End PythonFacts.

(* ================================================================== *)
(** * The dispatcher: replies and what becomes of them *)
(* ================================================================== *)

Section RunMore.
Import Py Eff Worker More.

(** The six ways a run can go, with the outcome of each step named. *)
Ltac run_by_cases W w :=
  let H := fresh "Hrun" in
  pose proof (run_try_cases W w) as H; cbv zeta in H;
  rewrite ?(run_trace_cases W w);
  let image := fresh "image" in
  let resp := fresh "resp" in
  let e := fresh "e" in
  let stripped := fresh "stripped" in
  destruct (read_file W (image_path w)) as [image|e] eqn:Hread;
  [ destruct (requests_post W (groq_request image)) as [resp|e] eqn:Hpost;
    [ destruct (status_code resp =? 200)%Z eqn:Hstatus;
      [ destruct (reply_text resp) as [stripped|e] eqn:Hreply | ] | ] | ];
  let Ht := fresh "Htrace" in
  let Ho := fresh "Hout" in
  injection H as Ht Ho; rewrite ?Ht, ?Ho.

Ltac in_list H :=
  cbn in H; repeat (destruct H as [H|H]; [try discriminate H|]);
  try contradiction.

(** A run that emits a result got a 200 reply whose text it is. *)
Lemma result_inv W w t :
  In (result t) (signals_of (run_trace W w)) ->
  exists resp,
    received W w = Some resp /\ status_code resp = 200%Z /\
    reply_text resp = Ok t.
Proof.
  intros H. rewrite received_cases. revert H.
  run_by_cases W w; intros H; in_list H.
  injection H as <-. exists resp. apply Z.eqb_eq in Hstatus. auto.
Qed.

(** X1. A result signal carries the content of the first choice of the
    reply without the white space around it: the content is the emitted text
    between two runs of white space, and the emitted text neither begins nor
    ends with a white-space character. *)
Theorem result_has_no_outer_whitespace W w t :
  In (result t) (signals_of (run_trace W w)) ->
  exists resp parsed pre post,
    received W w = Some resp /\
    json resp = Ok parsed /\
    message_content parsed = Ok (VStr (pre ++ t ++ post)) /\
    blank pre /\ blank post /\
    (forall c rest, t = c :: rest -> isspace c = false) /\
    (forall init c, t = init ++ [c] -> isspace c = false).
Proof.
  intros H. destruct (result_inv _ _ _ H) as (resp & Hrecv & _ & Hreply).
  apply reply_text_ok in Hreply. destruct Hreply as (parsed & content & Hj & Hc & ->).
  destruct (strip_split content) as (pre & post & Hs & Hpre & Hpost & Hh & Hl).
  exists resp, parsed, pre, post. rewrite <- Hs. auto 8.
Qed.

(** What a run emits when its 200 reply gives a text. *)
Lemma success_signals W w resp t :
  received W w = Some resp -> status_code resp = 200%Z ->
  reply_text resp = Ok t ->
  In (result t) (signals_of (run_trace W w)) /\
  filter is_error (signals_of (run_trace W w)) = [].
Proof.
  intros Hrecv H200 Ht. rewrite received_cases in Hrecv.
  run_by_cases W w; try discriminate; injection Hrecv as ->.
  - rewrite Ht in Hreply. injection Hreply as <-. split; [cbn; auto 6 | reflexivity].
  - congruence.
  - rewrite H200 in Hstatus. discriminate.
Qed.

(** What a run emits when its 200 reply gives no text. *)
Lemma failed_reply_signals W w resp e :
  received W w = Some resp -> status_code resp = 200%Z ->
  reply_text resp = Raise e ->
  In (error (u "Processing error: " ++ exn_str e)) (signals_of (run_trace W w)) /\
  filter is_result (signals_of (run_trace W w)) = [].
Proof.
  intros Hrecv H200 Ht. rewrite received_cases in Hrecv.
  run_by_cases W w; try discriminate; injection Hrecv as ->.
  - congruence.
  - rewrite Ht in Hreply. injection Hreply as <-. split; [cbn; auto 6 | reflexivity].
  - rewrite H200 in Hstatus. discriminate.
Qed.

(** X2. A 200 reply whose content is white space only is a success: the run
    emits the empty text as its result, and no error. *)
Theorem blank_content_is_an_empty_result W w resp parsed content :
  received W w = Some resp -> status_code resp = 200%Z ->
  json resp = Ok parsed ->
  message_content parsed = Ok (VStr content) ->
  blank content ->
  In (result []) (signals_of (run_trace W w)) /\
  filter is_error (signals_of (run_trace W w)) = [].
Proof.
  intros Hrecv H200 Hj Hc Hb. apply (success_signals _ _ Hrecv H200).
  apply reply_text_ok. exists parsed, content.
  repeat split; try assumption. symmetry. now apply strip_blank.
Qed.

#[local] Opaque u.

(** X3. A 200 reply whose JSON object lacks a part of the path
    [choices[0].message.content] gives no result: the run emits
    ["Processing error: "] followed by the message of the exception Python
    raises at the missing part. *)
Theorem malformed_reply_fails W w resp fields :
  received W w = Some resp -> status_code resp = 200%Z ->
  json resp = Ok (VDict fields) ->
  let sigs := signals_of (run_trace W w) in
  let fails_with msg :=
    In (error (u "Processing error: " ++ msg)) sigs /\ filter is_result sigs = [] in
  (dict_lookup fields (u "choices") = None ->
   fails_with (u "'NoneType' object is not subscriptable")) /\
  (dict_lookup fields (u "choices") = Some (VList []) ->
   fails_with (u "list index out of range")) /\
  (forall choice rest,
     dict_lookup fields (u "choices") = Some (VList (VDict choice :: rest)) ->
     dict_lookup choice (u "message") = None ->
     fails_with (u "'NoneType' object has no attribute 'get'")) /\
  (forall choice rest message,
     dict_lookup fields (u "choices") = Some (VList (VDict choice :: rest)) ->
     dict_lookup choice (u "message") = Some (VDict message) ->
     dict_lookup message (u "content") = None \/
     dict_lookup message (u "content") = Some VNone ->
     fails_with (u "'NoneType' object has no attribute 'strip'")).
Proof.
  intros Hrecv H200 Hj. cbv zeta.
  assert (Hfail : forall e, reply_text resp = Raise e ->
            In (error (u "Processing error: " ++ exn_str e)) (signals_of (run_trace W w)) /\
            filter is_result (signals_of (run_trace W w)) = [])
    by (intros e; apply failed_reply_signals; assumption).
  unfold reply_text, message_content, and_then, get, get_default in Hfail.
  rewrite Hj in Hfail.
  split; [|split; [|split]].
  - intros Hc. rewrite Hc in Hfail. exact (Hfail _ eq_refl).
  - intros Hc. rewrite Hc in Hfail. exact (Hfail _ eq_refl).
  - intros choice rest Hc Hm. rewrite Hc in Hfail. cbn in Hfail.
    rewrite Hm in Hfail. exact (Hfail _ eq_refl).
  - intros choice rest message Hc Hm Hct. rewrite Hc in Hfail. cbn in Hfail.
    rewrite Hm in Hfail. destruct Hct as [Hct|Hct]; rewrite Hct in Hfail;
      exact (Hfail _ eq_refl).
Qed.

(** X4. A reply whose status is not 200 is never parsed: two such replies
    with the same status and body give the same run, whatever their JSON
    is, valid or not. *)
Theorem non_200_reply_is_not_parsed W w resp resp' :
  status_code resp <> 200%Z ->
  status_code resp' = status_code resp ->
  text resp' = text resp ->
  run_trace (answering (Ok resp') W) w = run_trace (answering (Ok resp) W) w.
Proof.
  intros Hne Hs Ht. rewrite !run_trace_cases.
  pose proof (run_try_cases (answering (Ok resp') W) w) as H1.
  pose proof (run_try_cases (answering (Ok resp) W) w) as H2.
  cbv zeta in H1, H2.
  cbn [answering read_file time_time requests_post] in H1, H2.
  rewrite Hs, Ht in H1.
  destruct (read_file W (image_path w)) as [image|e].
  - destruct (status_code resp =? 200)%Z eqn:E;
      [apply Z.eqb_eq in E; contradiction|].
    rewrite <- H2 in H1. injection H1 as -> ->. reflexivity.
  - rewrite <- H2 in H1. injection H1 as -> ->. reflexivity.
Qed.

(** The signals of a run, read off its surroundings. *)
Lemma signals_of_run W w :
  signals_of (run_trace W w) =
  status (u "Processing image...") ::
  match read_file W (image_path w) with
  | Raise e =>
      [ error (u "Processing error: " ++ exn_str e);
        log (u "Processing error: " ++ exn_str e) true; finished ]
  | Ok image =>
      log (u "Image encoded in " ++
           fmt_2f (time_time W 4 - time_time W 1) ++ u "s") false ::
      log (u "Sending to " ++ model w) false ::
      match requests_post W (groq_request image) with
      | Raise e =>
          [ error (u "Processing error: " ++ exn_str e);
            log (u "Processing error: " ++ exn_str e) true; finished ]
      | Ok resp =>
          if (status_code resp =? 200)%Z then
            match reply_text resp with
            | Raise e =>
                [ error (u "Processing error: " ++ exn_str e);
                  log (u "Processing error: " ++ exn_str e) true; finished ]
            | Ok stripped =>
                let elapsed := (time_time W 9 - time_time W 1)%float in
                [ result stripped;
                  status (u "Done in " ++ fmt_2f elapsed ++ u "s");
                  log (u "OCR completed in " ++ fmt_2f elapsed ++ u "s") false;
                  log (text resp) true; finished ]
            end
          else
            [ error (u "API error (Groq): " ++ text resp);
              log (u "API error (Groq): " ++ text resp) true; finished ]
      end
  end.
Proof. run_by_cases W w; reflexivity. Qed.

(** ** [base64.b64encode] *)

Lemma bytes_ind3 (P : bytes -> Prop) :
  P [] -> (forall a, P [a]) -> (forall a b, P [a; b]) ->
  (forall a b c rest, P rest -> P (a :: b :: c :: rest)) ->
  forall bs, P bs.
Proof.
  intros H0 H1 H2 H3 bs.
  enough (H : P bs /\ (forall a, P (a :: bs)) /\ (forall a b, P (a :: b :: bs)))
    by apply H.
  induction bs as [|x bs (IH0 & IH1 & IH2)]; auto.
Qed.

Lemma b64_char_ascii i : (b64_char i < 128)%N.
Proof.
  unfold b64_char.
  destruct (nth_in_or_default (N.to_nat i) b64_alphabet 61%N) as [H| ->];
    [|reflexivity].
  revert H. generalize (nth (N.to_nat i) b64_alphabet 61%N). intros c.
  assert (Hall : Forall (fun c => (c < 128)%N) b64_alphabet)
    by (vm_compute; repeat constructor).
  rewrite Forall_forall in Hall. apply Hall.
Qed.

(** X5. The encoded image put in the request is ASCII, and four characters
    long for every three bytes of the file, the last group padded. *)
Theorem encoded_image_is_ascii (image : bytes) :
  Forall (fun c => (c < 128)%N) (b64encode image) /\
  List.length (b64encode image) = 4 * ((List.length image + 2) / 3).
Proof.
  induction image as [| a | a b | a b c rest [IH1 IH2]] using bytes_ind3.
  - split; [constructor | reflexivity].
  - split; [|reflexivity].
    cbn [b64encode]. repeat constructor; try apply b64_char_ascii.
  - split; [|reflexivity].
    cbn [b64encode]. repeat constructor; try apply b64_char_ascii.
  - split.
    + cbn [b64encode]. repeat (constructor; [apply b64_char_ascii|]). exact IH1.
    + cbn [b64encode List.length]. rewrite IH2.
      replace (S (S (S (List.length rest))) + 2) with (List.length rest + 2 + 1 * 3) by lia.
      rewrite Nat.div_add by discriminate. lia.
Qed.

#[local] Transparent u.

End RunMore.

(* ================================================================== *)
(** * The shell: events, jobs and what every window satisfies *)
(* ================================================================== *)

Section ShellMore.
Import Py Eff Qt App Rest.

#[local] Opaque u.

Ltac slot_compute :=
  cbv beta iota zeta delta
    [run_slot bind try_except perform assign window around time_strftime lift
     ret update_status log log_message load_pixmap load_image select_image
     get_request handle_result handle_error cleanup_thread closeEvent
     resizeEvent fst snd app done stamps].

(** ** The widgets *)

Lemma text_setText t l : text (setText t l) = t.
Proof.
  unfold setText. destruct (str_eqb (text l) t) eqn:E; [|reflexivity].
  now apply str_eqb_eq.
Qed.

Lemma styleSheet_setText t l : styleSheet (setText t l) = styleSheet l.
Proof. unfold setText. destruct (str_eqb (text l) t); reflexivity. Qed.

Lemma setText_nil_setPixmap p l : setText [] (setPixmap p l) = setPixmap p l.
Proof. reflexivity. Qed.

(** X6. [load_image] selects the file whether or not it can be read as an
    image: the path, the file name label and the status line are set in
    both cases. The thumbnail is shown when the file loads; when it does
    not, the image label keeps what it showed before. *)
Theorem load_image_selects_even_unreadable g a file_path :
  let a' := fst (run_slot g (load_image file_path) a) in
  image_path a' = file_path /\
  text (image_info a') = last_component file_path /\
  text (status_bar a') = u "Loaded: " ++ last_component file_path /\
  styleSheet (status_bar a') = u "color: #666;" /\
  (pixmap_loads g file_path = true ->
   pixmap (image_label a') =
     Some (Scaled (PixmapOfFile file_path) (image_label_width g - 20)
                  (image_label_height g - 20)) /\
   text (image_label a') = []) /\
  (pixmap_loads g file_path = false -> image_label a' = image_label a).
Proof.
  slot_compute.
  destruct (pixmap_loads g file_path); cbn [isNull negb];
    cbv beta iota zeta;
    cbn [image_path image_info status_bar image_label on_image_path
         on_image_info on_status_bar on_image_label];
    rewrite ?setText_nil_setPixmap;
    cbn [text styleSheet pixmap setStyleSheet setPixmap];
    rewrite ?text_setText;
    (split; [reflexivity|]); (split; [reflexivity|]); (split; [reflexivity|]);
    (split; [reflexivity|]); split; intros H; try discriminate H;
    try split; reflexivity.
Qed.

(** ** The file name shown *)

Lemma existsb_slash_In s : existsb (N.eqb 47) s = true <-> In 47%N s.
Proof.
  rewrite existsb_exists. split.
  - intros (c & Hc & E). apply N.eqb_eq in E. now subst.
  - intros H. exists 47%N. split; [exact H | reflexivity].
Qed.

(** X7. The name shown for a path holds no ['/'], and the path is that name,
    or a directory part, a ['/'] and that name. *)
Theorem last_component_is_the_file_name file_path :
  ~ In 47%N (last_component file_path) /\
  (file_path = last_component file_path \/
   exists dir, file_path = dir ++ [47%N] ++ last_component file_path).
Proof.
  induction file_path as [|c s [IHno IHsplit]]; [split; [intros [] | left; reflexivity]|].
  cbn [last_component].
  destruct (existsb (N.eqb 47) s) eqn:Hs.
  - split; [exact IHno|]. right.
    destruct IHsplit as [Heq|[dir Hdir]].
    + exfalso. apply IHno. rewrite <- Heq. now apply existsb_slash_In.
    + exists (c :: dir). cbn. now f_equal.
  - assert (Hno : ~ In 47%N s).
    { intros H. apply existsb_slash_In in H. congruence. }
    destruct (c =? 47)%N eqn:Hc.
    + apply N.eqb_eq in Hc. subst c. split; [exact Hno|]. right. now exists [].
    + apply N.eqb_neq in Hc. split; [|left; reflexivity].
      intros [H|H]; [now apply Hc | now apply Hno].
Qed.

(** ** Dropped and pasted URLs *)

Lemma load_first_image_skips g t skipped file_paths :
  Forall (fun q => image_path_like g q = false) skipped ->
  load_first_image (skipped ++ file_paths) g t = load_first_image file_paths g t.
Proof.
  induction 1 as [|q skipped Hq _ IH]; [reflexivity|].
  cbn [List.app load_first_image]. unfold bind at 1. unfold around at 1.
  unfold image_path_like in Hq. rewrite Hq. exact IH.
Qed.

(** X8. A drop loads the first of its paths that ends in an image suffix,
    and no other: paths before it that do not are skipped, paths after it
    are not looked at, and a drop without such a path changes nothing. *)
Theorem drop_loads_the_first_image_path g a bitmap skipped :
  Forall (fun q => image_path_like g q = false) skipped ->
  run_slot g (dropEvent {| imageData := bitmap; urls := skipped |}) a = (a, []) /\
  forall file_path rest,
    image_path_like g file_path = true ->
    run_slot g (dropEvent {| imageData := bitmap;
                             urls := skipped ++ file_path :: rest |}) a =
    run_slot g (load_image file_path) a.
Proof.
  intros Hskip. unfold run_slot, dropEvent. cbn [urls]. split.
  - rewrite <- (app_nil_r skipped).
    rewrite (load_first_image_skips g _ [] Hskip). reflexivity.
  - intros file_path rest Hp.
    rewrite (load_first_image_skips g _ (file_path :: rest) Hskip).
    rewrite load_first_image_head by exact Hp. reflexivity.
Qed.

(** X9. A cancelled file dialog, a key press that is not exactly Ctrl+V, and
    a paste from a clipboard that holds neither a bitmap nor an image path
    leave the window as it is and do nothing else. *)
Theorem idle_events_change_nothing g a :
  (getOpenFileName g = [] -> run_slot g select_image a = (a, [])) /\
  (forall event,
     key event <> Key_V \/ modifiers event <> ControlModifier ->
     run_slot g (keyPressEvent event) a = (a, [])) /\
  (imageData (clipboard g) = None ->
   Forall (fun q => image_path_like g q = false) (urls (clipboard g)) ->
   run_slot g (keyPressEvent ctrl_v) a = (a, [])).
Proof.
  split; [|split].
  - intros Hpick. unfold run_slot, select_image.
    unfold bind, around. rewrite Hpick. reflexivity.
  - intros event Hev. unfold run_slot, keyPressEvent.
    replace ((key event =? Key_V)%Z && (modifiers event =? ControlModifier)%Z)
      with false; [reflexivity|].
    symmetry. apply andb_false_iff.
    destruct Hev as [H|H]; [left | right]; now apply Z.eqb_neq.
  - intros Himg Hurls. unfold run_slot, keyPressEvent.
    cbn [ctrl_v key modifiers]. cbn [Z.eqb Key_V ControlModifier Pos.eqb andb].
    unfold bind at 1 2. unfold around at 1 2. unfold hasImage, hasUrls.
    rewrite Himg.
    destruct (urls (clipboard g)) as [|q qs] eqn:Hq; [reflexivity|].
    rewrite <- (app_nil_r (q :: qs)).
    rewrite (load_first_image_skips g _ [] Hurls). reflexivity.
Qed.

(** ** The connection check *)

Ltac check_compute :=
  cbv beta iota zeta delta
    [check_ollama_connection run_slot bind try_except perform assign window
     around time_strftime lift ret update_status log get_request fst snd app
     done stamps];
  cbn [ollama_url on_status_bar].

Ltac window_fields :=
  cbn [available_models model_dropdown image_path process_btn status_bar
       preferred_model ollama_url
       on_status_bar on_available_models on_model_dropdown
       text styleSheet setStyleSheet];
  rewrite ?text_setText.

(** X10. A connection check that fails (a status other than 200, an
    exception of the GET, or a reply 200 from which the names cannot be
    read) keeps the list of models, the drop-down box, the selected image
    and the button, and shows its reason in red. *)
Theorem failed_check_keeps_the_catalog g a :
  let a' := fst (run_slot g check_ollama_connection a) in
  let kept :=
    available_models a' = available_models a /\
    model_dropdown a' = model_dropdown a /\
    image_path a' = image_path a /\
    process_btn a' = process_btn a /\
    styleSheet (status_bar a') = u "color: #d32f2f;" in
  (forall response,
     requests_get g (ollama_url a ++ u "/api/tags") 5 = Ok response ->
     Worker.status_code response <> 200%Z ->
     kept /\ text (status_bar a') = u "Connection failed") /\
  (forall e,
     requests_get g (ollama_url a ++ u "/api/tags") 5 = Raise e ->
     kept /\ text (status_bar a') = u "Error: " ++ exn_str e) /\
  (forall response e,
     requests_get g (ollama_url a ++ u "/api/tags") 5 = Ok response ->
     Worker.status_code response = 200%Z ->
     model_names response = Raise e ->
     kept /\ text (status_bar a') = u "Error: " ++ exn_str e).
Proof.
  cbv zeta. split; [|split].
  - intros response Hget Hne. apply Z.eqb_neq in Hne.
    check_compute. rewrite Hget. cbv beta iota zeta. rewrite Hne.
    cbv beta iota zeta. window_fields. auto 10.
  - intros e Hget. check_compute. rewrite Hget. cbv beta iota zeta.
    window_fields. auto 10.
  - intros response e Hget H200 Hnames.
    check_compute. rewrite Hget. cbv beta iota zeta. rewrite H200.
    cbn [Z.eqb Pos.eqb]. rewrite Hnames. cbv beta iota zeta.
    window_fields. auto 10.
Qed.

(** X11. When a listed model name is not a string, the check stores the new
    names in [available_models] and then fails at the join: the drop-down
    box still shows the old entries, and the status line the error. *)
Theorem non_string_name_splits_catalog_and_box g a response names e :
  requests_get g (ollama_url a ++ u "/api/tags") 5 = Ok response ->
  Worker.status_code response = 200%Z ->
  model_names response = Ok names ->
  join_values (u ", ") names = Raise e ->
  let a' := fst (run_slot g check_ollama_connection a) in
  available_models a' = names /\
  model_dropdown a' = model_dropdown a /\
  text (status_bar a') = u "Error: " ++ exn_str e /\
  styleSheet (status_bar a') = u "color: #d32f2f;".
Proof.
  intros Hget H200 Hnames Hjoin. cbv zeta.
  check_compute. rewrite Hget. cbv beta iota zeta. rewrite H200.
  cbn [Z.eqb Pos.eqb]. rewrite Hnames. cbv beta iota zeta.
  rewrite Hjoin. cbv beta iota zeta. window_fields. auto.
Qed.

(** X12. A successful check that lists no model empties the drop-down box
    and reports ["Connected | 0 models"]; a click on "Run OCR" is then
    refused for want of a model, although an image is selected. *)
Theorem empty_catalog_blocks_submit g a response :
  requests_get g (ollama_url a ++ u "/api/tags") 5 = Ok response ->
  Worker.status_code response = 200%Z ->
  model_names response = Ok [] ->
  image_path a <> [] ->
  let a' := fst (run_slot g check_ollama_connection a) in
  items (model_dropdown a') = [] /\
  text (status_bar a') = u "Connected | 0 models" /\
  forall g',
    run_slot g' run_ocr a' =
    (a', [QMessageBox_warning (u "Warning") (u "Please select a model first")]).
Proof.
  intros Hget H200 Hnames Hpath. cbv zeta.
  check_compute. rewrite Hget. cbv beta iota zeta. rewrite H200.
  cbn [Z.eqb Pos.eqb]. rewrite Hnames. cbv beta iota zeta.
  cbn [join_values join_values_from]. cbv beta iota zeta.
  window_fields.
  split; [reflexivity|]. split; [reflexivity|].
  intros g'. unfold run_slot, run_ocr, bind, window. cbn [fst snd app done].
  cbn [image_path on_status_bar on_model_dropdown on_available_models].
  destruct (image_path a) as [|c p]; [contradiction|]. reflexivity.
Qed.

(** X13. After a check that could not connect the drop-down box still holds
    the placeholder it was built with, and a click on "Run OCR" starts a
    worker whose model is ["Loading models..."]. *)
Theorem failed_check_then_submit_uses_placeholder g g' a e :
  requests_get g (ollama_url a ++ u "/api/tags") 5 = Raise e ->
  model_dropdown a = model_dropdown __init__ ->
  image_path a <> [] ->
  let a' := fst (run_slot g check_ollama_connection a) in
  snd (run_slot g' run_ocr a') =
    [worker_thread_start
       (Worker.__init__ (image_path a) (u "Loading models...") (ollama_url a))].
Proof.
  intros Hget Hbox Hpath. cbv zeta.
  assert (H : let a' := fst (run_slot g check_ollama_connection a) in
              image_path a' = image_path a /\ model_dropdown a' = model_dropdown a /\
              ollama_url a' = ollama_url a).
  { cbv zeta. check_compute. rewrite Hget. cbv beta iota zeta. window_fields. auto. }
  cbv zeta in H. destruct H as (H1 & H2 & H3).
  rewrite run_ocr_with_placeholder; rewrite ?H1, ?H2, ?H3; auto.
Qed.

(** ** A job from the click to [finished] *)

Lemma started_on_signal g s a : started (snd (run_slot g (on_signal s) a)) = [].
Proof.
  destruct s; try (apply run_slot_quiet, quiet_on_signal; discriminate).
  apply cleanup_thread_enables.
Qed.

Lemma step_deliver g W a s q rest sent :
  step g W (deliver 0) {| shell := a; in_flight := (s :: q) :: rest; posts := sent |} =
  {| shell := fst (run_slot g (on_signal s) a);
     in_flight := match q with [] => rest | _ :: _ => q :: rest end;
     posts := sent |}.
Proof.
  pose proof (started_on_signal g s a) as Hs.
  unfold step. destruct q; cbn [slot_of in_flight take_signal shell posts];
    destruct (run_slot g (on_signal s) a) as [a' effs]; cbn [fst snd] in *;
    rewrite Hs; cbn; rewrite !app_nil_r; reflexivity.
Qed.

Lemma deliver_every_signal q gWs a sent :
  q <> [] -> List.length gWs = List.length q ->
  steps (deliveries_of gWs) {| shell := a; in_flight := [q]; posts := sent |} =
  {| shell := after_signals (combine (map fst gWs) q) a;
     in_flight := []; posts := sent |}.
Proof.
  revert gWs a. induction q as [|s q IH]; intros gWs a Hne Hlen; [contradiction|].
  destruct gWs as [|[g W] gWs]; [discriminate|].
  cbn [deliveries_of map steps fold_left fst snd combine after_signals].
  rewrite step_deliver. destruct q as [|s' q].
  - destruct gWs; [reflexivity | discriminate].
  - apply IH; [discriminate | now injection Hlen].
Qed.

Lemma run_ocr_accepted_window g a :
  image_path a <> [] -> currentText (model_dropdown a) <> [] ->
  run_slot g run_ocr a =
  (on_worker_thread (fun _ => Some {| isRunning := true |})
     (on_worker (fun _ => Some (worker_of a))
        (on_worker_thread (fun _ => Some {| isRunning := false |})
           (on_result_text QTextEdit_clear
              (on_process_btn (setEnabled false) a)))),
   [worker_thread_start (worker_of a)]).
Proof.
  intros Hp Hm. unfold run_slot, run_ocr, bind, window. cbn [fst snd app done].
  destruct (image_path a) as [|c p] eqn:Hpath; [contradiction|].
  destruct (currentText (model_dropdown a)) as [|c' m] eqn:Hmodel; [contradiction|].
  cbn. unfold worker_of. rewrite Hpath, Hmodel. reflexivity.
Qed.

Lemma whole_job_window g W gWs sys :
  can_submit sys ->
  let q := Worker.signals_of (Worker.run_trace W (worker_of (shell sys))) in
  List.length gWs = List.length q ->
  whole_job g W gWs sys =
  {| shell := after_signals (combine (map fst gWs) q)
                            (fst (run_slot g run_ocr (shell sys)));
     in_flight := [];
     posts := posts sys ++ Worker.posts_of (Worker.run_trace W (worker_of (shell sys))) |}.
Proof.
  intros (Hq & He & Hp & Hm) q Hlen. unfold whole_job.
  cbn [steps fold_left]. rewrite (step_click_enabled g W sys He).
  rewrite (@run_ocr_accepted_window g (shell sys) Hp Hm). cbn [started flat_map map List.app fst].
  rewrite Hq, !app_nil_r. cbn [List.app].
  apply deliver_every_signal; [|exact Hlen].
  destruct (queue_ok_run W (worker_of (shell sys))) as (before & Hb & _).
  fold q in Hb. rewrite Hb. destruct before; discriminate.
Qed.

(** What the slot of each signal does to the window. *)
Lemma on_signal_window g s a :
  fst (run_slot g (on_signal s) a) =
  match s with
  | Worker.result text => on_result_text (setPlainText text) a
  | Worker.error _ =>
      on_status_bar (setStyleSheet (u "color: #d32f2f;"))
        (on_status_bar (setText (u "Error occurred")) a)
  | Worker.status message =>
      on_status_bar (setStyleSheet (u "color: #666;"))
        (on_status_bar (setText message) a)
  | Worker.log _ _ => a
  | Worker.finished =>
      on_process_btn (setEnabled true)
        match worker_thread a with
        | Some _ => on_worker_thread (fun _ => None) a
        | None => a
        end
  end.
Proof.
  destruct s; cbn [on_signal]; try reflexivity.
  unfold run_slot, cleanup_thread, bind, window. cbn [fst snd app].
  destruct (worker_thread a); reflexivity.
Qed.

(** The ways a job can go, with one surroundings per signal. *)
Ltac job_cases W sys gWs Hlen :=
  revert Hlen; rewrite (signals_of_run W (worker_of (shell sys)));
  destruct (Worker.read_file W (Worker.image_path (worker_of (shell sys))))
    as [image|e] eqn:Hread;
  [ destruct (Worker.requests_post W (Worker.groq_request image))
      as [resp|e] eqn:Hpost;
    [ destruct (Worker.status_code resp =? 200)%Z eqn:Hstatus;
      [ destruct (Worker.reply_text resp) as [stripped|e] eqn:Hreply | ] | ] | ];
  intros Hlen;
  repeat (destruct gWs as [|[? ?] gWs]; [discriminate Hlen|]);
  (destruct gWs; [|discriminate Hlen]);
  cbn [combine map fst snd after_signals fold_left];
  rewrite !on_signal_window.

Ltac job_fields :=
  cbn [worker_thread process_btn image_path model_dropdown result_text
       status_bar ollama_url
       on_worker_thread on_worker on_result_text on_process_btn on_status_bar
       setEnabled isEnabled setPlainText toPlainText QTextEdit_clear
       text styleSheet setStyleSheet];
  rewrite ?text_setText.

(** X14. A job that is started on an idle window and whose signals are all
    handled leaves the window idle again: nothing is in flight, the button
    is enabled, the thread attribute is [None], the selected image is the
    same, and the POST requests sent are those of this one run. *)
Theorem every_job_ends_idle g W gWs sys :
  can_submit sys ->
  List.length gWs =
    List.length (Worker.signals_of (Worker.run_trace W (worker_of (shell sys)))) ->
  let sys' := whole_job g W gWs sys in
  can_submit sys' /\
  worker_thread (shell sys') = None /\
  image_path (shell sys') = image_path (shell sys) /\
  posts sys' =
    posts sys ++ Worker.posts_of (Worker.run_trace W (worker_of (shell sys))).
Proof.
  intros Hsub Hlen. cbv zeta. rewrite (whole_job_window g W gWs Hsub Hlen).
  destruct Hsub as (Hq & He & Hp & Hm).
  rewrite (@run_ocr_accepted_window g (shell sys) Hp Hm). cbn [fst].
  unfold can_submit. cbn [shell in_flight posts].
  job_cases W sys gWs Hlen; job_fields; auto 10.
Qed.

(** X15. After a job whose reply was a 200 with a text, the result box
    shows that text and the status line the elapsed time, in grey. *)
Theorem finished_job_shows_the_text g W gWs sys reply t :
  can_submit sys ->
  List.length gWs =
    List.length (Worker.signals_of (Worker.run_trace W (worker_of (shell sys)))) ->
  Worker.received W (worker_of (shell sys)) = Some reply ->
  Worker.status_code reply = 200%Z ->
  Worker.reply_text reply = Ok t ->
  let a' := shell (whole_job g W gWs sys) in
  toPlainText (result_text a') = t /\
  text (status_bar a') =
    u "Done in " ++ fmt_2f (Worker.time_time W 9 - Worker.time_time W 1)%float ++ u "s" /\
  styleSheet (status_bar a') = u "color: #666;".
Proof.
  intros Hsub Hlen Hrecv H200 Ht. cbv zeta.
  rewrite (whole_job_window g W gWs Hsub Hlen).
  destruct Hsub as (Hq & He & Hp & Hm).
  rewrite (@run_ocr_accepted_window g (shell sys) Hp Hm). cbn [fst shell].
  rewrite received_cases in Hrecv.
  job_cases W sys gWs Hlen; try discriminate Hrecv; injection Hrecv as ->;
    try congruence.
  - job_fields. rewrite Ht in Hreply. injection Hreply as <-. auto.
  - rewrite H200 in Hstatus. discriminate.
Qed.

(** X16. After a job that emitted an error, the result box is empty (it was
    cleared at the click) and the status line says ["Error occurred"] in
    red. *)
Theorem failed_job_shows_the_error g W gWs sys msg :
  can_submit sys ->
  List.length gWs =
    List.length (Worker.signals_of (Worker.run_trace W (worker_of (shell sys)))) ->
  In (Worker.error msg) (Worker.signals_of (Worker.run_trace W (worker_of (shell sys)))) ->
  let a' := shell (whole_job g W gWs sys) in
  toPlainText (result_text a') = [] /\
  text (status_bar a') = u "Error occurred" /\
  styleSheet (status_bar a') = u "color: #d32f2f;".
Proof.
  intros Hsub Hlen Herr. cbv zeta.
  rewrite (whole_job_window g W gWs Hsub Hlen).
  destruct Hsub as (Hq & He & Hp & Hm).
  rewrite (@run_ocr_accepted_window g (shell sys) Hp Hm). cbn [fst shell].
  revert Herr.
  job_cases W sys gWs Hlen; intros Herr; job_fields; auto.
  exfalso. cbn in Herr.
  repeat (destruct Herr as [Herr|Herr]; [discriminate Herr|]). exact Herr.
Qed.

(** ** Parts of the window a slot leaves alone *)

Lemma leaves_ret A B (part : OCRApp -> B) (a : A) : leaves part (ret a).
Proof. intros g t. reflexivity. Qed.

Lemma leaves_lift A B (part : OCRApp -> B) (o : outcome A) : leaves part (lift o).
Proof. intros g t. reflexivity. Qed.

Lemma leaves_window B (part : OCRApp -> B) : leaves part window.
Proof. intros g t. reflexivity. Qed.

Lemma leaves_around A B (part : OCRApp -> B) (f : Gui -> A) : leaves part (around f).
Proof. intros g t. reflexivity. Qed.

Lemma leaves_time_strftime B (part : OCRApp -> B) : leaves part time_strftime.
Proof. intros g t. reflexivity. Qed.

Lemma leaves_perform B (part : OCRApp -> B) e : leaves part (perform e).
Proof. intros g t. reflexivity. Qed.

Lemma leaves_assign B (part : OCRApp -> B) f :
  (forall a, part (f a) = part a) -> leaves part (assign f).
Proof. intros Hf g t. apply Hf. Qed.

Lemma leaves_bind A A' B (part : OCRApp -> B) (m : UI A) (k : A -> UI A') :
  leaves part m -> (forall a, leaves part (k a)) -> leaves part (bind m k).
Proof.
  intros Hm Hk g t. unfold bind. specialize (Hm g t).
  destruct (m g t) as [t' [a|e]]; cbn [fst] in *; [|exact Hm].
  rewrite (Hk a g t'). exact Hm.
Qed.

Lemma leaves_try_except A B (part : OCRApp -> B) (body : UI A) handler :
  leaves part body -> (forall e, leaves part (handler e)) ->
  leaves part (try_except body handler).
Proof.
  intros Hm Hk g t. unfold try_except. specialize (Hm g t).
  destruct (body g t) as [t' [a|e]]; cbn [fst] in *; [exact Hm|].
  rewrite (Hk e g t'). exact Hm.
Qed.

Lemma leaves_load_first_image B (part : OCRApp -> B) file_paths :
  (forall p, leaves part (load_image p)) -> leaves part (load_first_image file_paths).
Proof.
  intros H. induction file_paths as [|p rest IH]; cbn [load_first_image].
  - apply leaves_ret.
  - apply leaves_bind; [apply leaves_around|]. intros lowered.
    destruct (endswith_any lowered image_suffixes); [apply H | exact IH].
Qed.

Ltac leaves_step :=
  first
    [ apply leaves_ret | apply leaves_lift | apply leaves_window
    | apply leaves_around | apply leaves_time_strftime | apply leaves_perform
    | apply leaves_load_first_image; intros ?
    | apply leaves_bind; [|intros ?]
    | apply leaves_try_except; [|intros ?]
    | apply leaves_assign; (let x := fresh "w" in intros x; destruct x; reflexivity)
    | match goal with
      | |- leaves _ (if ?b then _ else _) => destruct b
      | |- leaves _ (match ?x with _ => _ end) => destruct x
      end
    | progress unfold load_pixmap ].

Ltac leaves_all := repeat leaves_step.


(** Only [load_image] touches the selection. *)
Lemma on_signal_leaves_selection s : leaves selection (on_signal s).
Proof. destruct s; cbn [on_signal]; unfold cleanup_thread; leaves_all. Qed.

(** No slot touches the settings. *)
Lemma on_signal_leaves_settings s : leaves settings (on_signal s).
Proof. destruct s; cbn [on_signal]; unfold cleanup_thread; leaves_all. Qed.

Lemma on_user_leaves_settings ev : leaves settings (on_user ev).
Proof.
  destruct ev; cbn [on_user];
    unfold check_ollama_connection, image_click_event, select_image, dropEvent,
           keyPressEvent, closeEvent, run_ocr;
    leaves_all.
Qed.

(** ** What every reachable window satisfies *)

Lemma step_shell g W l sys :
  shell (step g W l sys) =
  match slot_of l sys with
  | Some (slot, _) => fst (run_slot g slot (shell sys))
  | None => shell sys
  end.
Proof.
  unfold step. destruct (slot_of l sys) as [[slot qs]|]; [|reflexivity].
  destruct (run_slot g slot (shell sys)); reflexivity.
Qed.

Lemma step_leaves B (part : OCRApp -> B) g W l sys :
  (forall ev, leaves part (on_user ev)) ->
  (forall s, leaves part (on_signal s)) ->
  part (shell (step g W l sys)) = part (shell sys).
Proof.
  intros Hu Hs. rewrite step_shell. destruct l as [ev|i]; cbn [slot_of].
  - apply (Hu ev g).
  - destruct (take_signal i (in_flight sys)) as [[s qs]|]; [|reflexivity].
    apply (Hs s g).
Qed.

(** X17. No user event and no signal changes the Ollama address or the
    preferred model: in every reachable window they are what [__init__]
    set. *)
Theorem settings_never_change sys :
  reachable sys ->
  ollama_url (shell sys) = u "http://localhost:11434" /\
  preferred_model (shell sys) = u "gemma:2b".
Proof.
  intros [ls <-].
  enough (H : settings (shell (steps ls boot)) = settings (shell boot))
    by (injection H as -> ->; split; reflexivity).
  generalize boot. induction ls as [|[[g W] l] ls IH]; intros sys; [reflexivity|].
  cbn [steps fold_left]. fold (steps ls (step g W l sys)). rewrite IH.
  apply step_leaves; [apply on_user_leaves_settings | apply on_signal_leaves_settings].
Qed.

(** *** The file name label *)

Lemma preserves_of_leaves_selection A (m : UI A) :
  leaves selection m -> preserves names_file m.
Proof.
  intros Hm g t H. specialize (Hm g t). unfold selection in Hm.
  injection Hm as Hp Hi. unfold names_file in *. rewrite Hp, Hi. exact H.
Qed.

Lemma preserves_bind A A' P (m : UI A) (k : A -> UI A') :
  preserves P m -> (forall a, preserves P (k a)) -> preserves P (bind m k).
Proof.
  intros Hm Hk g t H. unfold bind. specialize (Hm g t H).
  destruct (m g t) as [t' [a|e]]; cbn [fst] in *; [|exact Hm].
  apply Hk, Hm.
Qed.

Lemma load_image_names_file file_path g t :
  let a' := app (fst (load_image file_path g t)) in
  image_path a' = file_path /\
  text (image_info a') = last_component file_path.
Proof.
  slot_compute.
  destruct (pixmap_loads g file_path); cbn [isNull negb]; cbv beta iota zeta;
    cbn [image_path image_info on_image_path on_image_info on_status_bar
         on_image_label];
    rewrite text_setText; split; reflexivity.
Qed.

Lemma preserves_load_image file_path : preserves names_file (load_image file_path).
Proof.
  intros g t _. destruct (load_image_names_file file_path g t) as [Hp Hi].
  right. rewrite Hp, Hi. reflexivity.
Qed.

Lemma preserves_load_first_image file_paths :
  preserves names_file (load_first_image file_paths).
Proof.
  induction file_paths as [|p rest IH]; cbn [load_first_image].
  - intros g t H. exact H.
  - apply preserves_bind; [intros g t H; exact H|]. intros lowered.
    destruct (endswith_any lowered image_suffixes);
      [apply preserves_load_image | exact IH].
Qed.

Lemma on_user_preserves_names_file ev : preserves names_file (on_user ev).
Proof.
  destruct ev; cbn [on_user].
  - apply preserves_of_leaves_selection.
    unfold check_ollama_connection. leaves_all.
  - unfold image_click_event, select_image.
    apply preserves_bind; [intros g t H; exact H|]. intros file_path.
    destruct (truthy file_path); [apply preserves_load_image | intros g t H; exact H].
  - apply preserves_load_first_image.
  - unfold keyPressEvent.
    destruct ((key event =? Key_V)%Z && (modifiers event =? ControlModifier)%Z);
      [|intros g t H; exact H].
    apply preserves_bind; [intros g t H; exact H|]. intros mime_data.
    destruct (hasImage mime_data).
    + apply preserves_of_leaves_selection. leaves_all.
    + destruct (hasUrls mime_data);
        [apply preserves_load_first_image | intros g t H; exact H].
  - apply preserves_of_leaves_selection. unfold run_ocr. leaves_all.
  - apply preserves_of_leaves_selection. unfold closeEvent. leaves_all.
Qed.

Lemma names_file_steps ls sys :
  names_file (shell sys) -> names_file (shell (steps ls sys)).
Proof.
  revert sys. induction ls as [|[[g W] l] ls IH]; intros sys H0; [exact H0|].
  cbn [steps fold_left]. apply IH. cbv beta iota.
  rewrite step_shell. destruct l as [ev|i]; cbn [slot_of].
  - apply (on_user_preserves_names_file ev g), H0.
  - destruct (take_signal i (in_flight sys)) as [[s qs]|]; [|exact H0].
    apply (preserves_of_leaves_selection (on_signal_leaves_selection s) g), H0.
Qed.

(** X18. In every reachable window that has an image path, the file name
    label shows the last component of that path. *)
Theorem file_label_names_the_selected_file sys :
  reachable sys ->
  image_path (shell sys) <> [] ->
  text (image_info (shell sys)) = last_component (image_path (shell sys)).
Proof.
  intros [ls <-] Hsel.
  destruct (@names_file_steps ls boot) as [[Hp _]|Hi];
    [left; split; reflexivity | contradiction | exact Hi].
Qed.

(** *** The thread attribute *)





(** ** The picture that is sent *)

(** X20. An accepted click on "Run OCR" sends one POST request, built from
    the bytes of the file at the selected path at that moment; when the
    file cannot be read, nothing is sent. *)
Theorem submit_posts_the_selected_file g W sys :
  can_submit sys ->
  let sys' := step g W (user process_btn_click) sys in
  (forall image,
     Worker.read_file W (image_path (shell sys)) = Ok image ->
     posts sys' = posts sys ++ [Worker.groq_request image]) /\
  (forall e,
     Worker.read_file W (image_path (shell sys)) = Raise e ->
     posts sys' = posts sys).
Proof.
  intros (Hq & He & Hp & Hm). cbv zeta.
  rewrite (step_click_enabled g W sys He).
  rewrite (@run_ocr_accepted_window g (shell sys) Hp Hm).
  cbn [started flat_map map List.app posts]. rewrite app_nil_r, posts_of_run.
  unfold worker_of. cbn [Worker.__init__ Worker.image_path].
  split; intros x Hx; rewrite Hx; [reflexivity | apply app_nil_r].
Qed.

(** ** The two logging methods *)

(** X21. [log] and [log_message] print the same line for the same message,
    flag and time of day. *)
Theorem log_and_log_message_print_alike message error g t :
  log message error g t = log_message message error g t.
Proof.
  unfold log, log_message, bind, time_strftime, perform. cbn [fst snd].
  destruct error; cbn [List.app]; [|rewrite !app_nil_r; reflexivity].
  unfold esc_red. cbn [List.app]. rewrite <- !app_assoc. reflexivity.
Qed.

(** ** Resizing *)

(** X22. A resize scales the thumbnail that is shown, not the file it was
    made from: after [load_image] and a resize the label shows the scaled
    thumbnail scaled again, and the selection is the same. *)
Theorem resize_rescales_the_thumbnail g g' a file_path null_is_true :
  pixmap_loads g file_path = true ->
  let loaded := fst (run_slot g (load_image file_path) a) in
  let resized := fst (run_slot g' (resizeEvent null_is_true) loaded) in
  pixmap (image_label resized) =
    Some (Scaled (Scaled (PixmapOfFile file_path) (image_label_width g - 20)
                         (image_label_height g - 20))
                 (image_label_width g' - 20) (image_label_height g' - 20)) /\
  text (image_label resized) = [] /\
  selection resized = selection loaded /\
  snd (run_slot g' (resizeEvent null_is_true) loaded) = [].
Proof.
  intros Hload. slot_compute. rewrite Hload.
  cbn [isNull negb]. cbv beta iota zeta.
  cbn [image_label on_image_path on_image_info on_status_bar on_image_label].
  rewrite !setText_nil_setPixmap.
  cbn [QLabel_pixmap pixmap setPixmap isNull scaled negb].
  cbv beta iota zeta.
  cbn [image_label on_image_path on_image_info on_status_bar on_image_label].
  rewrite !setText_nil_setPixmap. repeat split.
Qed.

(** ** Substrings and suffixes *)

Lemma startswith_prefix s p :
  startswith s p = true <-> exists rest, s = p ++ rest.
Proof.
  revert s. induction p as [|a p IH]; intros s.
  - split; [intros _; now exists s | intros _; now destruct s].
  - destruct s as [|b s]; cbn [startswith].
    + split; [discriminate | intros [rest H]; discriminate H].
    + rewrite andb_true_iff, N.eqb_eq, IH. split.
      * intros [-> [rest ->]]. now exists rest.
      * intros [rest H]. injection H as -> ->. split; [reflexivity | now exists rest].
Qed.

(** X23. [needle in hay] holds exactly when [hay] is [needle] between two
    strings. *)
Theorem contains_is_substring hay needle :
  contains hay needle = true <-> exists pre post, hay = pre ++ needle ++ post.
Proof.
  induction hay as [|c hay IH]; cbn [contains].
  - rewrite orb_false_r, startswith_prefix. split.
    + intros [rest H]. now exists [], rest.
    + intros (pre & post & H). destruct pre; [now exists post|discriminate H].
  - rewrite orb_true_iff, startswith_prefix, IH. split.
    + intros [[rest H]|(pre & post & H)].
      * now exists [], rest.
      * exists (c :: pre), post. cbn. now f_equal.
    + intros (pre & post & H). destruct pre as [|d pre].
      * left. now exists post.
      * right. injection H as _ H. now exists pre, post.
Qed.

(** X24. A dropped or pasted path is taken for an image exactly when its
    lower-case form ends in one of the five image suffixes. *)
Theorem image_paths_end_in_a_suffix g file_path :
  image_path_like g file_path = true <->
  exists stem suffix,
    In suffix image_suffixes /\ lower g file_path = stem ++ suffix.
Proof.
  unfold image_path_like, endswith_any. rewrite existsb_exists.
  assert (Hend : forall s p, endswith s p = true <-> exists stem, s = stem ++ p).
  { intros s p. unfold endswith. rewrite startswith_prefix. split.
    - intros [rest H]. exists (rev rest).
      apply (f_equal (@rev _)) in H.
      rewrite rev_involutive, rev_app_distr, rev_involutive in H. exact H.
    - intros [stem ->]. exists (rev stem). apply rev_app_distr. }
  split.
  - intros (suffix & Hin & H). apply Hend in H. destruct H as [stem H].
    now exists stem, suffix.
  - intros (stem & suffix & Hin & H). exists suffix. split; [exact Hin|].
    apply Hend. now exists stem.
Qed.

#[local] Transparent u.

(** ** Drags and resizes *)
(** X25. A drag is accepted as soon as it carries a URL: when none of its
    paths ends in an image suffix the drag is accepted and the drop changes
    nothing. *)
Theorem drag_is_accepted_whatever_the_suffix g a mimeData :
  urls mimeData <> [] ->
  Forall (fun q => image_path_like g q = false) (urls mimeData) ->
  dragEnterEvent mimeData = true /\
  run_slot g (dropEvent mimeData) a = (a, []).
Proof.
  intros Hne Hall. split.
  - unfold dragEnterEvent, hasUrls. destruct (urls mimeData); [contradiction|reflexivity].
  - unfold run_slot, dropEvent. rewrite <- (app_nil_r (urls mimeData)).
    rewrite (load_first_image_skips g _ [] Hall). reflexivity.
Qed.

(** X26. A resize changes the image label at most, and does nothing else;
    a label that shows no pixmap is left as it is. *)
Theorem resize_touches_only_the_image_label g a null_is_true :
  exists l,
    run_slot g (resizeEvent null_is_true) a = (on_image_label (fun _ => l) a, []) /\
    (pixmap (image_label a) = None -> l = image_label a).
Proof.
  unfold run_slot, resizeEvent, load_pixmap, bind, window, around, assign, QLabel_pixmap.
  cbn [fst snd app done].
  destruct (pixmap (image_label a)) as [p|] eqn:Hp.
  - destruct (isNull p); [destruct null_is_true|]; cbn [negb];
      cbv beta iota zeta; cbn [fst snd app done].
    + exists (image_label a). destruct a; split; [reflexivity | discriminate].
    + exists (image_label a). destruct a; split; [reflexivity | discriminate].
    + eexists. split; [|discriminate]. destruct a; cbn. reflexivity.
  - cbn [isNull negb]. exists (image_label a).
    destruct null_is_true; destruct a; split; reflexivity.
Qed.

End ShellMore.

(* ================================================================== *)
(** * The further properties at sample surroundings *)
(* ================================================================== *)

Section MoreSamples.
Import Py Qt Examples More Rest Scenes.

(** X1 at the reply ["  Hello World  "]. *)
Lemma result_has_no_outer_whitespace_hello :
  In (Worker.result (u "Hello World"))
     (Worker.signals_of (Worker.run_trace (world (Ok hello)) cat_worker)) /\
  exists resp parsed pre post,
    Worker.received (world (Ok hello)) cat_worker = Some resp /\
    Worker.json resp = Ok parsed /\
    Worker.message_content parsed = Ok (VStr (pre ++ u "Hello World" ++ post)) /\
    blank pre /\ blank post /\
    (forall c rest, u "Hello World" = c :: rest -> isspace c = false) /\
    (forall init c, u "Hello World" = init ++ [c] -> isspace c = false).
Proof.
  assert (H : In (Worker.result (u "Hello World"))
                 (Worker.signals_of (Worker.run_trace (world (Ok hello)) cat_worker)))
    by (vm_compute; auto 10).
  split; [exact H|].
  exact (@result_has_no_outer_whitespace (world (Ok hello)) cat_worker (u "Hello World") H).
Defined.

(** X2 at a reply of three spaces. *)
Lemma blank_content_is_an_empty_result_at_spaces :
  blank (u "   ") /\
  In (Worker.result [])
     (Worker.signals_of (Worker.run_trace (world (Ok blank_reply)) cat_worker)) /\
  filter Worker.is_error
     (Worker.signals_of (Worker.run_trace (world (Ok blank_reply)) cat_worker)) = [].
Proof.
  assert (Hb : blank (u "   ")) by (repeat constructor).
  split; [exact Hb|].
  refine (@blank_content_is_an_empty_result (world (Ok blank_reply)) cat_worker
            blank_reply _ (u "   ") _ eq_refl eq_refl eq_refl Hb).
  vm_compute. reflexivity.
Defined.

(** X3 at the replies [{}] and [{"choices":[]}]. *)
Lemma malformed_reply_fails_samples :
  (In (Worker.error (u "Processing error: " ++ u "'NoneType' object is not subscriptable"))
      (Worker.signals_of (Worker.run_trace (world (Ok empty_object)) cat_worker)) /\
   filter Worker.is_result
      (Worker.signals_of (Worker.run_trace (world (Ok empty_object)) cat_worker)) = []) /\
  (In (Worker.error (u "Processing error: " ++ u "list index out of range"))
      (Worker.signals_of (Worker.run_trace (world (Ok no_choice)) cat_worker)) /\
   filter Worker.is_result
      (Worker.signals_of (Worker.run_trace (world (Ok no_choice)) cat_worker)) = []).
Proof.
  split.
  - refine (proj1 (@malformed_reply_fails (world (Ok empty_object)) cat_worker
                     empty_object [] _ eq_refl eq_refl) eq_refl).
    vm_compute. reflexivity.
  - refine (proj1 (proj2 (@malformed_reply_fails (world (Ok no_choice)) cat_worker
                     no_choice [(u "choices", VList [])] _ eq_refl eq_refl)) eq_refl).
    vm_compute. reflexivity.
Defined.

(** X4 at a 429 reply, parsed or not. *)
Lemma non_200_reply_is_not_parsed_at_429 :
  Worker.run_trace (answering (Ok rate_limited_json) (world (Ok hello))) cat_worker =
  Worker.run_trace (answering (Ok rate_limited_text) (world (Ok hello))) cat_worker.
Proof.
  apply (@non_200_reply_is_not_parsed (world (Ok hello)) cat_worker
           rate_limited_text rate_limited_json).
  - discriminate.
  - reflexivity.
  - reflexivity.
Defined.

(** X6 at a file that loads and at one that does not. *)
Lemma load_image_selects_even_unreadable_samples :
  let g := gui [] [] no_mime in
  let shown := fst (App.run_slot g (App.load_image cat_png) App.__init__) in
  let unread := fst (App.run_slot g (App.load_image missing_png) App.__init__) in
  pixmap (App.image_label shown) = Some (Scaled (PixmapOfFile cat_png) 560 230) /\
  App.image_path unread = missing_png /\
  text (App.image_info unread) = u "missing.png" /\
  App.image_label unread = App.image_label App.__init__.
Proof.
  cbv zeta.
  pose proof (load_image_selects_even_unreadable (gui [] [] no_mime) App.__init__ cat_png)
    as H1.
  pose proof (load_image_selects_even_unreadable (gui [] [] no_mime) App.__init__
                missing_png) as H2.
  cbv zeta in H1, H2.
  destruct H1 as (_ & _ & _ & _ & H1 & _).
  destruct H2 as (Hp & Hi & _ & _ & _ & H2).
  split; [exact (proj1 (H1 eq_refl))|]. split; [exact Hp|].
  split; [exact Hi | exact (H2 eq_refl)].
Defined.

(** X8 at a drop of a text file, an image in capitals and another image. *)
Lemma drop_loads_the_first_image_path_sample :
  let g := gui [] [] no_mime in
  App.run_slot g (App.dropEvent {| imageData := None; urls := [notes_txt] |})
               App.__init__ = (App.__init__, []) /\
  App.run_slot g (App.dropEvent {| imageData := None;
                                   urls := [notes_txt; CAT_PNG; cat_png] |})
               App.__init__ =
  App.run_slot g (App.load_image CAT_PNG) App.__init__.
Proof.
  cbv zeta.
  assert (Hskip : Forall (fun q => image_path_like (gui [] [] no_mime) q = false)
                         [notes_txt]) by (repeat constructor).
  destruct (@drop_loads_the_first_image_path (gui [] [] no_mime) App.__init__ None
              [notes_txt] Hskip) as [H1 H2].
  split; [exact H1 | exact (H2 CAT_PNG [cat_png] eq_refl)].
Defined.

(** X9 at a cancelled dialog, a plain V and a paste from an empty
    clipboard. *)
Lemma idle_events_change_nothing_samples :
  let g := gui [] [] no_mime in
  App.run_slot g App.select_image App.__init__ = (App.__init__, []) /\
  App.run_slot g (App.keyPressEvent {| key := Key_V; modifiers := 0 |}) App.__init__ =
    (App.__init__, []) /\
  App.run_slot g (App.keyPressEvent App.ctrl_v) App.__init__ = (App.__init__, []).
Proof.
  cbv zeta.
  destruct (idle_events_change_nothing (gui [] [] no_mime) App.__init__)
    as (H1 & H2 & H3).
  split; [exact (H1 eq_refl)|]. split.
  - apply H2. right. discriminate.
  - apply H3; [reflexivity | constructor].
Defined.

(** X10 at a refused connection and at a 500 reply. *)
Lemma failed_check_keeps_the_catalog_samples :
  text (App.status_bar (fst (App.run_slot offline App.check_ollama_connection
                                          App.__init__))) =
    u "Error: " ++ u "Connection refused" /\
  text (App.status_bar (fst (App.run_slot (gui_answered (Ok server_error) 580 250)
                                          App.check_ollama_connection App.__init__))) =
    u "Connection failed".
Proof.
  split.
  - pose proof (failed_check_keeps_the_catalog offline App.__init__) as H.
    cbv zeta in H. destruct H as (_ & H & _).
    exact (proj2 (H refused eq_refl)).
  - pose proof (failed_check_keeps_the_catalog (gui_answered (Ok server_error) 580 250)
                  App.__init__) as H.
    cbv zeta in H. destruct H as (H & _).
    refine (proj2 (H server_error eq_refl _)). discriminate.
Defined.

(** X11 at a model list whose entry is named [7]. *)
Lemma non_string_name_splits_catalog_and_box_sample :
  let a' := fst (App.run_slot (gui_answered (Ok numbered) 580 250)
                              App.check_ollama_connection App.__init__) in
  App.available_models a' = [VInt 7] /\
  App.model_dropdown a' = App.model_dropdown App.__init__ /\
  text (App.status_bar a') =
    u "Error: " ++ u "sequence item 0: expected str instance, int found" /\
  styleSheet (App.status_bar a') = u "color: #d32f2f;".
Proof.
  exact (@non_string_name_splits_catalog_and_box (gui_answered (Ok numbered) 580 250)
           App.__init__ numbered [VInt 7]
           (Exn "TypeError" (u "sequence item 0: expected str instance, int found"))
           eq_refl eq_refl eq_refl eq_refl).
Defined.

(** X12 at an empty model list, with [cat_png] selected. *)
Lemma empty_catalog_blocks_submit_sample :
  let g := gui [] [] no_mime in
  let a' := fst (App.run_slot g App.check_ollama_connection (App.shell ready)) in
  items (App.model_dropdown a') = [] /\
  text (App.status_bar a') = u "Connected | 0 models" /\
  App.run_slot g App.run_ocr a' =
    (a', [App.QMessageBox_warning (u "Warning") (u "Please select a model first")]).
Proof.
  cbv zeta.
  assert (Hp : App.image_path (App.shell ready) <> []) by (vm_compute; discriminate).
  pose proof (@empty_catalog_blocks_submit (gui [] [] no_mime) (App.shell ready)
                (tags []) eq_refl eq_refl eq_refl Hp) as H.
  cbv zeta in H. destruct H as (H1 & H2 & H3).
  split; [exact H1|]. split; [exact H2 | exact (H3 (gui [] [] no_mime))].
Defined.

(** X13 at a refused connection, with [cat_png] selected. *)
Lemma failed_check_then_submit_uses_placeholder_sample :
  snd (App.run_slot (gui [] [] no_mime) App.run_ocr
         (fst (App.run_slot offline App.check_ollama_connection (App.shell ready)))) =
  [App.worker_thread_start
     (Worker.__init__ cat_png (u "Loading models...") (u "http://localhost:11434"))].
Proof.
  assert (Hp : App.image_path (App.shell ready) <> []) by (vm_compute; discriminate).
  exact (@failed_check_then_submit_uses_placeholder offline (gui [] [] no_mime)
           (App.shell ready) refused eq_refl eq_refl Hp).
Defined.

(** X14 at the window with [cat_png] picked and the reply [hello]. *)
Lemma every_job_ends_idle_at_ready :
  let g := gui [] cat_png no_mime in
  let W := world (Ok hello) in
  let sys' := whole_job g W (repeat (g, W) 8) ready in
  can_submit ready /\
  can_submit sys' /\
  App.worker_thread (App.shell sys') = None /\
  App.image_path (App.shell sys') = App.image_path (App.shell ready) /\
  App.posts sys' =
    App.posts ready ++
    Worker.posts_of (Worker.run_trace W (worker_of (App.shell ready))).
Proof.
  cbv zeta.
  assert (Hsub : can_submit ready).
  { unfold can_submit. repeat split; vm_compute; try reflexivity; discriminate. }
  split; [exact Hsub|].
  refine (@every_job_ends_idle (gui [] cat_png no_mime) (world (Ok hello))
            (repeat (gui [] cat_png no_mime, world (Ok hello)) 8) ready Hsub _).
  vm_compute. reflexivity.
Defined.

(** X15 at the same job: the text shown is ["Hello World"]. *)
Lemma finished_job_shows_the_text_hello :
  let g := gui [] cat_png no_mime in
  let W := world (Ok hello) in
  let a' := App.shell (whole_job g W (repeat (g, W) 8) ready) in
  toPlainText (App.result_text a') = u "Hello World" /\
  text (App.status_bar a') = u "Done in " ++ u "2.25" ++ u "s" /\
  styleSheet (App.status_bar a') = u "color: #666;".
Proof.
  cbv zeta.
  assert (Hsub : can_submit ready).
  { unfold can_submit. repeat split; vm_compute; try reflexivity; discriminate. }
  refine (@finished_job_shows_the_text (gui [] cat_png no_mime) (world (Ok hello))
            (repeat (gui [] cat_png no_mime, world (Ok hello)) 8) ready hello
            (u "Hello World") Hsub _ _ eq_refl _);
    vm_compute; reflexivity.
Defined.

(** X16 at the reply 429 "rate limited". *)
Lemma failed_job_shows_the_error_at_429 :
  let g := gui [] cat_png no_mime in
  let W := world (Ok rate_limited) in
  let a' := App.shell (whole_job g W (repeat (g, W) 6) ready) in
  toPlainText (App.result_text a') = [] /\
  text (App.status_bar a') = u "Error occurred" /\
  styleSheet (App.status_bar a') = u "color: #d32f2f;".
Proof.
  cbv zeta.
  assert (Hsub : can_submit ready).
  { unfold can_submit. repeat split; vm_compute; try reflexivity; discriminate. }
  refine (@failed_job_shows_the_error (gui [] cat_png no_mime) (world (Ok rate_limited))
            (repeat (gui [] cat_png no_mime, world (Ok rate_limited)) 6) ready
            (u "API error (Groq): rate limited") Hsub _ _).
  - vm_compute. reflexivity.
  - vm_compute. auto 10.
Defined.

(** X20 at a file on the disk and at one that is not there. *)
Lemma submit_posts_the_selected_file_samples :
  let g := gui [] [] no_mime in
  let W := world (Ok hello) in
  App.posts (App.step g W (App.user App.process_btn_click) ready) =
    App.posts ready ++ [Worker.groq_request png_bytes] /\
  App.posts (App.step g W (App.user App.process_btn_click) ready_missing) =
    App.posts ready_missing.
Proof.
  cbv zeta. split.
  - assert (Hsub : can_submit ready).
    { unfold can_submit. repeat split; vm_compute; try reflexivity; discriminate. }
    exact (proj1 (@submit_posts_the_selected_file (gui [] [] no_mime) (world (Ok hello))
                    ready Hsub) png_bytes eq_refl).
  - assert (Hsub : can_submit ready_missing).
    { unfold can_submit. repeat split; vm_compute; try reflexivity; discriminate. }
    refine (proj2 (@submit_posts_the_selected_file (gui [] [] no_mime) (world (Ok hello))
                     ready_missing Hsub)
              (Exn "FileNotFoundError"
                   (u "[Errno 2] No such file or directory: '/home/user/missing.png'")) _).
    vm_compute. reflexivity.
Defined.


(** X18 at the window with [cat_png] picked. *)
Lemma file_label_names_the_selected_file_at_ready :
  App.reachable ready /\
  text (App.image_info (App.shell ready)) = u "cat.png".
Proof.
  assert (Hready : App.reachable ready) by (eexists; reflexivity).
  split; [exact Hready|].
  refine (file_label_names_the_selected_file Hready _).
  vm_compute. discriminate.
Defined.

(** X17 at the window with a job in flight. *)
Lemma settings_never_change_at_busy :
  App.reachable busy /\
  App.ollama_url (App.shell busy) = u "http://localhost:11434" /\
  App.preferred_model (App.shell busy) = u "gemma:2b".
Proof.
  assert (Hbusy : App.reachable busy) by (eexists; reflexivity).
  split; [exact Hbusy | exact (settings_never_change Hbusy)].
Defined.

(** X22 at [cat_png], the label growing from 580x250 to 780x450. *)
Lemma resize_rescales_the_thumbnail_at_cat :
  let g := gui [] [] no_mime in
  let g' := gui_answered (Ok (tags [])) 780 450 in
  let loaded := fst (App.run_slot g (App.load_image cat_png) App.__init__) in
  let resized := fst (App.run_slot g' (resizeEvent true) loaded) in
  pixmap (App.image_label resized) =
    Some (Scaled (Scaled (PixmapOfFile cat_png) 560 230) 760 430) /\
  text (App.image_label resized) = [] /\
  selection resized = selection loaded /\
  snd (App.run_slot g' (resizeEvent true) loaded) = [].
Proof.
  exact (@resize_rescales_the_thumbnail (gui [] [] no_mime)
           (gui_answered (Ok (tags [])) 780 450) App.__init__ cat_png true eq_refl).
Defined.

(** X25 at a drag of a text file. *)
Lemma drag_is_accepted_whatever_the_suffix_sample :
  let dragged := {| imageData := None; urls := [notes_txt] |} in
  dragEnterEvent dragged = true /\
  App.run_slot (gui [] [] no_mime) (App.dropEvent dragged) App.__init__ =
    (App.__init__, []).
Proof.
  cbv zeta.
  refine (@drag_is_accepted_whatever_the_suffix (gui [] [] no_mime) App.__init__
            {| imageData := None; urls := [notes_txt] |} _ _).
  - discriminate.
  - repeat constructor.
Defined.

End MoreSamples.
